(** * spikesorters: the dispatcher [sorterlist.py] and the Mountainsort4 backend

    A shallow embedding of [spikesorters/sorterlist.py] and
    [spikesorters/mountainsort4/mountainsort4.py].

    Python code that touches the file system, prints, or calls into a
    collaborator is embedded in a state-and-exception monad over a [World]
    (a file system and the trace of what happened).  Collaborators whose
    code lives in other packages (spikeextractors, spiketoolkit, ml_ms4alg,
    hither2, pathlib) or in modules of this package that are not part of
    the two files embedded here (basesorter.py, sorter_tools.py,
    docker_tools.py, the other sorter classes) are fields of the record
    [Env]: every statement below holds for all of them. *)

From Stdlib Require Import PrimFloat.
From stdpp Require Import gmap strings list fin_maps sorting.

Open Scope string_scope.
Open Scope list_scope.

(** ** Python values, exceptions and the effect monad *)

(** The sorter classes imported at the top of sorterlist.py.  [OtherClass]
    stands for any class object that is not one of them. *)
Inductive PyClass :=
| HDSortSorter
| KlustaSorter
| TridesclousSorter
| Mountainsort4Sorter
| IronClustSorter
| KilosortSorter
| Kilosort2Sorter
| Kilosort2_5Sorter
| Kilosort3Sorter
| SpykingcircusSorter
| HerdingspikesSorter
| WaveClusSorter
| YassSorter
| CombinatoSorter
| OtherClass (n : nat).

#[global] Instance PyClass_eq_dec : EqDecision PyClass.
Proof. solve_decision. Defined.

(** The Python values that flow through keyword arguments and parameter
    dictionaries.  [PyOpaque] is an object the embedded code only passes
    along (a dumped recording dictionary). *)
Inductive PyVal :=
| PyNone
| PyBool (b : bool)
| PyInt (z : Z)
| PyFloat (f : float)
| PyStr (s : string)
| PyCls (c : PyClass)
| PyOpaque (tag : string).

(** Truth value of an object in a condition ([if x], [x and y]). *)
Definition truthy (v : PyVal) : bool :=
  match v with
  | PyNone => false
  | PyBool b => b
  | PyInt z => negb (z =? 0)%Z
  | PyFloat f => negb (PrimFloat.eqb f 0%float)
  | PyStr s => negb (String.eqb s "")
  | PyCls _ => true
  | PyOpaque _ => true
  end.

(** [x is not None] *)
Definition is_not_None (v : PyVal) : bool :=
  match v with PyNone => false | _ => true end.

(** [x is True]: identity with the singleton [True]. *)
Definition is_True (v : PyVal) : bool :=
  match v with PyBool true => true | _ => false end.

(** Exceptions.  The first four are the ones the embedded code raises
    itself; [UnsupportedConcurrencyModel] is the spec's name for the
    rejection by BaseSorter.run; the others come from Python built-ins and
    collaborators. *)
Inductive exn :=
| KeyError (key : PyVal)
| ValueError (msg : string)
| AssertionError (msg : string)
| NotImplementedError
| UnsupportedConcurrencyModel
| TypeError (msg : string)
| FileNotFoundError (path : string)
| FileExistsError (path : string)
| CollaboratorError (msg : string)
| IsADirectoryError (path : string)
| PermissionError (path : string).

Inductive outcome (A : Type) :=
| Ok (a : A)
| Raised (e : exn).
Arguments Ok {A} a.
Arguments Raised {A} e.

(** State-and-exception monad over a state [S]. *)
Definition ST (S A : Type) : Type := S → outcome A * S.

Definition ret {S A} (a : A) : ST S A := λ s, (Ok a, s).
Definition raise {S A} (e : exn) : ST S A := λ s, (Raised e, s).
Definition bind {S A B} (c : ST S A) (k : A → ST S B) : ST S B :=
  λ s, match c s with
       | (Ok a, s') => k a s'
       | (Raised e, s') => (Raised e, s')
       end.
Definition lift {S A} (o : outcome A) : ST S A := λ s, (o, s).
Definition modify {S} (f : S → S) : ST S unit := λ s, (Ok tt, f s).
Definition get {S} : ST S S := λ s, (Ok s, s).

Notation "'let*' x ':=' c 'in' k" := (bind c (λ x, k))
  (at level 10, x pattern, c at level 100, k at level 200, only parsing).
Notation "c >> k" := (bind c (λ _, k))
  (at level 100, k at level 200, right associativity, only parsing).

(** [assert cond, msg] *)
Definition py_assert {S} (cond : bool) (msg : string) : ST S unit :=
  if cond then ret tt else raise (AssertionError msg).

(** [a and b] inside a condition: [b] is evaluated only when [a] is true. *)
Definition py_and {S} (a b : ST S bool) : ST S bool :=
  let* x := a in if x then b else ret false.

(** [d[k]] on a dictionary with string keys. *)
Definition getitem {S V} (d : gmap string V) (k : string) : ST S V :=
  match d !! k with
  | Some v => ret v
  | None => raise (KeyError (PyStr k))
  end.

(** A keyword argument with its default. *)
Definition kwarg (kwargs : gmap string PyVal) (name : string) (dflt : PyVal) : PyVal :=
  default dflt (kwargs !! name).

(** The keyword arguments a [**params] parameter collects: the ones that
    are not named parameters of the function. *)
Definition kwrest (kwargs : gmap string PyVal) (named : list string) : gmap string PyVal :=
  filter (λ kv, kv.1 ∉ named) kwargs.

(** ** Paths and the file system *)

(** A [pathlib.Path] is represented by the string [str()] gives for it.
    [p / name] for a one-component [name]. *)
Definition path_join (p name : string) : string :=
  if decide (p = "/") then "/" +:+ name
  else if decide (p = ".") then name
  else p +:+ "/" +:+ name.

Inductive Node :=
| Dir
| File (data : string).

(** What the embedded code reads from a recording extractor. *)
Record Recording := mkRecording {
  rec_tag : string;
  is_filtered : bool;
  is_dumpable : bool;
  get_sampling_frequency : float
}.

(** A sorting extractor: one row (event index, unit label) per detected
    event, and the sampling frequency when the extractor carries one. *)
Record Sorting := mkSorting {
  firings : list (Z * Z);
  sorting_sampling_frequency : option float
}.

(** The things the embedded code does that an observer can see, in order:
    printing, file-system operations, and the calls into the preprocessing
    and sorting libraries. *)
Inductive Event :=
| EvPrint (msg : string)
| EvMkdir (path : string)
| EvWrite (path : string)
| EvRead (path : string)
| EvRmtree (path : string)
| EvBandpass (recording : Recording) (freq_min freq_max : PyVal)
| EvWhiten (recording : Recording)
| EvSort (recording : Recording) (args : list PyVal)
| EvCurate (recording : Recording) (sorting : Sorting) (noise_overlap_threshold : PyVal).

Record World := mkWorld {
  fs : gmap string Node;
  trace : list Event
}.

Definition M (A : Type) : Type := ST World A.

Definition emit (ev : Event) : M unit :=
  modify (λ w, mkWorld (fs w) (trace w ++ [ev])).

Definition print (msg : string) : M unit := emit (EvPrint msg).

(** [Path.mkdir(exist_ok=True, parents=True)]: the directory exists
    afterwards; a regular file in its place is an error.  Parent
    directories are not tracked as entries of their own. *)
Definition mkdir (p : string) : M unit :=
  let* w := get in
  match fs w !! p with
  | Some (File _) => raise (FileExistsError p)
  | Some Dir => emit (EvMkdir p)
  | None => emit (EvMkdir p) >> modify (λ w, mkWorld (<[p := Dir]> (fs w)) (trace w))
  end.

(** Writing a whole file (open for writing, write, close).  [open] raises
    when the operating system refuses the path ([denied]: no permission,
    no parent directory, a read-only file system) and when the path is a
    directory; nothing is written then. *)
Definition write_file (denied : string → option exn) (p data : string) : M unit :=
  match denied p with
  | Some e => raise e
  | None =>
      let* w := get in
      match fs w !! p with
      | Some Dir => raise (IsADirectoryError p)
      | _ =>
          emit (EvWrite p) >>
          modify (λ w, mkWorld (<[p := File data]> (fs w)) (trace w))
      end
  end.

(** Reading a whole file. *)
Definition read_file (p : string) : M string :=
  emit (EvRead p) >>
  let* w := get in
  match fs w !! p with
  | Some (File data) => ret data
  | _ => raise (FileNotFoundError p)
  end.

(** [shutil.rmtree(p)]: [p] and everything below it is gone. *)
Definition rmtree (p : string) : M unit :=
  emit (EvRmtree p) >>
  modify (λ w, mkWorld
    (filter (λ kv, kv.1 ≠ p ∧ ¬ String.prefix (p +:+ "/") kv.1 = true) (fs w))
    (trace w)).

(** The files a stretch of the trace wrote, and the ones it read. *)
Definition written_paths (t : list Event) : list string :=
  omap (λ ev, match ev with EvWrite p => Some p | _ => None end) t.

Definition read_paths (t : list Event) : list string :=
  omap (λ ev, match ev with EvRead p => Some p | _ => None end) t.

(** The calls to [bandpass_filter] and to [mountainsort4_curation] in a
    stretch of the trace. *)
Definition bandpass_calls (t : list Event) : list (Recording * PyVal * PyVal) :=
  omap (λ ev, match ev with EvBandpass r lo hi => Some (r, lo, hi) | _ => None end) t.

Definition curation_calls (t : list Event) : list (Recording * Sorting * PyVal) :=
  omap (λ ev, match ev with EvCurate r s thr => Some (r, s, thr) | _ => None end) t.

Definition sort_calls (t : list Event) : list (Recording * list PyVal) :=
  omap (λ ev, match ev with EvSort r args => Some (r, args) | _ => None end) t.

(** A call into a library: the call is observable, its result (or the
    exception it raises) is the collaborator's. *)
Definition call {A} (ev : Event) (result : outcome A) : M A :=
  emit ev >> lift result.

(** ** The collaborators *)

(** An instance of a sorter class, as far as the embedded code reads it. *)
Record Sorter := mkSorter {
  sorter_class : PyClass;
  params : gmap string PyVal;
  verbose : PyVal
}.

Record Env := mkEnv {
  (** class attributes of the sorter classes other than Mountainsort4Sorter *)
  other_sorter_name : PyClass → string;
  other_compatible_with_parallel : PyClass → gmap string bool;
  (** [cls.is_installed()] *)
  class_is_installed : PyClass → bool;
  (** docker_tools *)
  HAVE_DOCKER : bool;
  default_docker_images : gmap string string;
  modify_input_folder : PyVal → string → outcome (PyVal * string);
  (** sorter_tools *)
  recover_recording : Recording → Recording;
  (** basesorter: constructor, set_params, the partition work of run, get_result *)
  BaseSorter_init : PyClass → Recording → PyVal → PyVal → PyVal → PyVal → M Sorter;
  BaseSorter_set_params : Sorter → gmap string PyVal → M Sorter;
  BaseSorter_run_partitions : Sorter → PyVal → PyVal → PyVal → PyVal → M unit;
  BaseSorter_get_result : Sorter → PyVal → M Sorting;
  (** spiketoolkit.preprocessing *)
  bandpass_filter : Recording → PyVal → PyVal → outcome Recording;
  whiten : Recording → outcome Recording;
  (** ml_ms4alg *)
  mountainsort4 : Recording → list PyVal → outcome Sorting;
  mountainsort4_curation : Recording → Sorting → PyVal → outcome Sorting;
  (** spikeextractors: the MDA and NPZ file formats, dumping and loading *)
  mda_encode : list (Z * Z) → string;
  mda_decode : string → outcome (list (Z * Z));
  npz_encode : Sorting → string;
  npz_decode : string → outcome Sorting;
  dump_to_dict : Recording → PyVal;
  load_extractor_from_dict : PyVal → outcome Recording;
  (** Python: ['{}'.format(x)] and [float(s)] on floats, [Path.absolute] *)
  format_float : float → string;
  parse_float : string → outcome float;
  absolute : string → string;
  (** hither2: running a job to completion; the measured run time *)
  hither_Job_wait : gmap string PyVal → M unit;
  elapsed : string;
  (** the operating system: the paths [open] refuses to open for writing,
      with the exception it raises *)
  open_denied : string → option exn;
  (** spikeextractors: what [MdaSortingExtractor.write_sorting] and
      [NpzSortingExtractor.write_sorting] raise of their own, if anything,
      for a sorting and a path *)
  mda_write_error : Sorting → string → option exn;
  npz_write_error : Sorting → string → option exn
}.

(** ** sorterlist.py: the registry *)

Module Registry.
Section defs.
Context (env : Env).

(** [cls.sorter_name]; the one of Mountainsort4Sorter is in mountainsort4.py. *)
Definition sorter_name (c : PyClass) : string :=
  match c with
  | Mountainsort4Sorter => "mountainsort4"
  | _ => other_sorter_name env c
  end.

Definition sorter_full_list : list PyClass :=
  [ HDSortSorter; KlustaSorter; TridesclousSorter; Mountainsort4Sorter;
    IronClustSorter; KilosortSorter; Kilosort2Sorter; Kilosort2_5Sorter;
    Kilosort3Sorter; SpykingcircusSorter; HerdingspikesSorter;
    WaveClusSorter; YassSorter; CombinatoSorter ].

(** [{s.sorter_name: s for s in classes}]: entries are stored one after
    the other, a later class replaces an earlier one of the same name. *)
Definition dict_by_name (classes : list PyClass) (d : gmap string PyClass) :
    gmap string PyClass :=
  foldl (λ d s, <[sorter_name s := s]> d) d classes.

Definition sorter_dict : gmap string PyClass := dict_by_name sorter_full_list ∅.

(** [sorted(xs)] on strings: Python orders strings lexicographically by
    character code, which is [String.le]. *)
Definition sorted (xs : list string) : list string := merge_sort String.le xs.

(** [sorted(list(sorter_dict.keys()))].  The keys come out of the finite
    map in some order; sorting makes the result independent of it. *)
Definition available_sorters : list string :=
  sorted (map_to_list sorter_dict).*1.

(** [sorted([s.sorter_name for s in sorter_full_list if s.is_installed()])] *)
Definition installed_sorters : list string :=
  sorted (sorter_name <$> filter (λ s, class_is_installed env s = true) sorter_full_list).

End defs.
End Registry.

(** ** mountainsort4.py: class Mountainsort4Sorter *)

Module Mountainsort4.
Section defs.
Context (env : Env).

Definition sorter_name : string := "mountainsort4".
Definition requires_locations : bool := false.
Definition compatible_with_parallel : gmap string bool :=
  list_to_map [("loky", true); ("multiprocessing", false); ("threading", false)].

Definition _default_params : gmap string PyVal :=
  list_to_map
    [ ("detect_sign", PyInt (-1));
      ("adjacency_radius", PyInt (-1));
      ("freq_min", PyInt 300);
      ("freq_max", PyInt 6000);
      ("filter", PyBool true);
      ("whiten", PyBool true);
      ("curation", PyBool false);
      ("num_workers", PyNone);
      ("clip_size", PyInt 50);
      ("detect_threshold", PyInt 3);
      ("detect_interval", PyInt 10);
      ("noise_overlap_threshold", PyFloat 0x1.3333333333333p-3%float); (* 0.15 *)
      ("add_end_clip", PyInt 0);
      ("freq_width", PyInt 1000) ].

Definition filter_warning : string :=
  "Warning! The recording is already filtered, but Mountainsort4 filter is enabled. You can disable filters by setting 'filter' parameter to False".

(** [se.MdaSortingExtractor.write_sorting(sorting, save_path)] *)
Definition MdaSortingExtractor_write_sorting (sorting : Sorting) (save_path : string) : M unit :=
  match mda_write_error env sorting save_path with
  | Some e => raise e
  | None => write_file (open_denied env) save_path (mda_encode env (firings sorting))
  end.

(** [se.MdaSortingExtractor(file_path=..., sampling_frequency=...)] *)
Definition MdaSortingExtractor (file_path : string) (sampling_frequency : float) : M Sorting :=
  let* data := read_file file_path in
  let* rows := lift (mda_decode env data) in
  ret (mkSorting rows (Some sampling_frequency)).

(** The end of [_run]: the sorting goes to firings.mda, the sampling rate
    to samplerate.txt. *)
Definition write_result (sorting : Sorting) (samplerate : float) (output_folder : string) : M unit :=
  MdaSortingExtractor_write_sorting sorting (path_join output_folder "firings.mda") >>
  let samplerate_fname := path_join output_folder "samplerate.txt" in
  write_file (open_denied env) samplerate_fname (format_float env samplerate).

(** [p[k]] used as a condition *)
Definition cond (p : gmap string PyVal) (k : string) (test : PyVal → bool) : M bool :=
  let* v := getitem p k in ret (test v).

Definition _run (self : Sorter) (recording : Recording) (output_folder : string) : M unit :=
  let recording := recover_recording env recording in
  let p := params self in
  let* warn := py_and (ret (is_filtered recording)) (cond p "filter" truthy) in
  (if warn then print filter_warning else ret tt) >>
  let samplerate := get_sampling_frequency recording in
  (* Bandpass filter *)
  let* do_filter :=
    py_and (cond p "filter" truthy)
      (py_and (cond p "freq_min" is_not_None) (cond p "freq_max" is_not_None)) in
  let* recording :=
    (if do_filter then
       let* freq_min := getitem p "freq_min" in
       let* freq_max := getitem p "freq_max" in
       call (EvBandpass recording freq_min freq_max)
            (bandpass_filter env recording freq_min freq_max)
     else ret recording) in
  (* Whiten *)
  let* do_whiten := cond p "whiten" truthy in
  let* recording :=
    (if do_whiten then call (EvWhiten recording) (whiten env recording)
     else ret recording) in
  let* detect_sign := getitem p "detect_sign" in
  let* adjacency_radius := getitem p "adjacency_radius" in
  let* clip_size := getitem p "clip_size" in
  let* detect_threshold := getitem p "detect_threshold" in
  let* detect_interval := getitem p "detect_interval" in
  let* num_workers := getitem p "num_workers" in
  let* add_end_clip := getitem p "add_end_clip" in
  let args := [detect_sign; adjacency_radius; clip_size; detect_threshold;
               detect_interval; num_workers; verbose self; add_end_clip] in
  let* sorting := call (EvSort recording args) (mountainsort4 env recording args) in
  (* Curate *)
  let* do_curate :=
    py_and (cond p "noise_overlap_threshold" is_not_None) (cond p "curation" is_True) in
  let* sorting :=
    (if do_curate then
       (if truthy (verbose self) then print "Curating" else ret tt) >>
       let* noise_overlap_threshold := getitem p "noise_overlap_threshold" in
       call (EvCurate recording sorting noise_overlap_threshold)
            (mountainsort4_curation env recording sorting noise_overlap_threshold)
     else ret sorting) in
  write_result sorting samplerate output_folder.

Definition get_result_from_folder (output_folder : string) : M Sorting :=
  let tmpdir := output_folder in
  let result_fname := path_join tmpdir "firings.mda" in
  let samplerate_fname := path_join tmpdir "samplerate.txt" in
  let* txt := read_file samplerate_fname in
  let* samplerate := lift (parse_float env txt) in
  MdaSortingExtractor result_fname samplerate.

End defs.
End Mountainsort4.

(** ** sorterlist.py: the dispatcher and the two launchers *)

Module Sorterlist.
Section defs.
Context (env : Env).

(** The keyword parameters [run_sorter], [_run_sorter_local] and
    [_run_sorter_hither] share. *)
Record Options := mkOptions {
  output_folder : PyVal;
  delete_output_folder : PyVal;
  grouping_property : PyVal;
  parallel : PyVal;
  verbose : PyVal;
  raise_error : PyVal;
  n_jobs : PyVal;
  joblib_backend : PyVal
}.

(** Their defaults in the three signatures. *)
Definition default_options : Options :=
  {| output_folder := PyNone;
     delete_output_folder := PyBool false;
     grouping_property := PyNone;
     parallel := PyBool false;
     verbose := PyBool false;
     raise_error := PyBool true;
     n_jobs := PyInt (-1);
     joblib_backend := PyStr "loky" |}.

Definition option_names : list string :=
  [ "output_folder"; "delete_output_folder"; "grouping_property"; "parallel";
    "verbose"; "raise_error"; "n_jobs"; "joblib_backend" ].

(** Binding a keyword dictionary ([f(..., **kwargs)]) to these parameters
    and [**params]. *)
Definition bind_options (kwargs : gmap string PyVal) : Options * gmap string PyVal :=
  ({| output_folder := kwarg kwargs "output_folder" PyNone;
      delete_output_folder := kwarg kwargs "delete_output_folder" (PyBool false);
      grouping_property := kwarg kwargs "grouping_property" PyNone;
      parallel := kwarg kwargs "parallel" (PyBool false);
      verbose := kwarg kwargs "verbose" (PyBool false);
      raise_error := kwarg kwargs "raise_error" (PyBool true);
      n_jobs := kwarg kwargs "n_jobs" (PyInt (-1));
      joblib_backend := kwarg kwargs "joblib_backend" (PyStr "loky") |},
   kwrest kwargs option_names).

(** [cls.compatible_with_parallel] *)
Definition compatible_with_parallel (c : PyClass) : gmap string bool :=
  match c with
  | Mountainsort4Sorter => Mountainsort4.compatible_with_parallel
  | _ => other_compatible_with_parallel env c
  end.

(** Modelled from the spec: BaseSorter.run (basesorter.py is not among the
    embedded files).  When the partitions are to run in parallel, the
    class's compatibility flags decide whether the chosen worker-pool
    backend is permitted; a selection they do not permit is rejected with
    UnsupportedConcurrencyModel before any work starts.  The work itself is
    the collaborator [BaseSorter_run_partitions]. *)
Definition BaseSorter_run (sorter : Sorter) (raise_error parallel n_jobs joblib_backend : PyVal) : M unit :=
  if truthy parallel then
    match joblib_backend with
    | PyStr backend =>
        match compatible_with_parallel (sorter_class sorter) !! backend with
        | Some true =>
            BaseSorter_run_partitions env sorter raise_error parallel n_jobs joblib_backend
        | _ => raise UnsupportedConcurrencyModel
        end
    | _ => raise UnsupportedConcurrencyModel
    end
  else BaseSorter_run_partitions env sorter raise_error parallel n_jobs joblib_backend.

Definition _run_sorter_local (sorter_name_or_class : PyVal) (recording : Recording)
    (opts : Options) (params : gmap string PyVal) : M Sorting :=
  let* SorterClass :=
    match sorter_name_or_class with
    | PyStr name => getitem (Registry.sorter_dict env) name
    | PyCls c =>
        if bool_decide (c ∈ Registry.sorter_full_list) then ret c
        else raise (ValueError "Unknown sorter")
    | _ => raise (ValueError "Unknown sorter")
    end in
  let* sorter :=
    BaseSorter_init env SorterClass recording (output_folder opts)
      (grouping_property opts) (verbose opts) (delete_output_folder opts) in
  let* sorter := BaseSorter_set_params env sorter params in
  BaseSorter_run sorter (raise_error opts) (parallel opts) (n_jobs opts) (joblib_backend opts) >>
  let* sortingextractor := BaseSorter_get_result env sorter (raise_error opts) in
  ret sortingextractor.

(** *** The container side: the hither hook and the job function *)

Record BindMount := mkBindMount {
  source : PyVal;
  target : string;
  read_only : bool
}.

Record PreContainerContext := mkContext {
  kwargs : gmap string PyVal;
  bind_mounts : list BindMount;
  image : option string
}.

Definition add_bind_mount (m : BindMount) : ST PreContainerContext unit :=
  modify (λ c, mkContext (kwargs c) (bind_mounts c ++ [m]) (image c)).

Definition set_image (img : string) : ST PreContainerContext unit :=
  modify (λ c, mkContext (kwargs c) (bind_mounts c) (Some img)).

Definition set_kwarg (k : string) (v : PyVal) : ST PreContainerContext unit :=
  modify (λ c, mkContext (<[k := v]> (kwargs c)) (bind_mounts c) (image c)).

Definition get_kwarg (k : string) : ST PreContainerContext PyVal :=
  let* c := get in getitem (kwargs c) k.

(** [default_docker_images[key]] *)
Definition docker_image (key : PyVal) : ST PreContainerContext string :=
  match key with
  | PyStr name =>
      match default_docker_images env !! name with
      | Some img => ret img
      | None => raise (KeyError key)
      end
  | _ => raise (KeyError key)
  end.

(** [SpikeSortingDockerHook.precontainer(context)] *)
Definition precontainer : ST PreContainerContext unit :=
  let* input_directory := get_kwarg "input_directory" in
  let* output_directory := get_kwarg "output_directory" in
  add_bind_mount (mkBindMount input_directory "/input" true) >>
  add_bind_mount (mkBindMount output_directory "/output" false) >>
  let* name := get_kwarg "sorter_name" in
  let* img := docker_image name in
  set_image img >>
  set_kwarg "output_directory" (PyStr "/output") >>
  set_kwarg "input_directory" (PyStr "/input").

(** [se.NpzSortingExtractor.write_sorting(sorting, save_path)] *)
Definition NpzSortingExtractor_write_sorting (sorting : Sorting) (save_path : string) : M unit :=
  match npz_write_error env sorting save_path with
  | Some e => raise e
  | None => write_file (open_denied env) save_path (npz_encode env sorting)
  end.

(** [se.NpzSortingExtractor(file_path)] *)
Definition NpzSortingExtractor (file_path : string) : M Sorting :=
  let* data := read_file file_path in
  lift (npz_decode env data).

Definition run_sorter_docker_with_container (recording_dict : PyVal) (sorter_name : string)
    (input_directory output_directory : string) (kwargs : gmap string PyVal) : M unit :=
  let* recording := lift (load_extractor_from_dict env recording_dict) in
  (* run sorter *)
  let kwargs := <["output_folder" := PyStr (output_directory +:+ "/working")]> kwargs in
  let '(opts, params) := bind_options kwargs in
  let* sorting := _run_sorter_local (PyStr sorter_name) recording opts params in
  print (sorter_name +:+ " run time " +:+ elapsed env +:+ "s") >>
  (* save sorting to npz *)
  NpzSortingExtractor_write_sorting sorting (output_directory +:+ "/sorting_docker.npz").

(** *** The host side of the container launcher *)

(** The keyword dictionary [_run_sorter_hither] builds for the job. *)
Definition job_kwargs (dump_dict_container : PyVal) (sorter_name : string)
    (output_folder input_directory : string) (opts : Options)
    (params : gmap string PyVal) : gmap string PyVal :=
  let kwargs : gmap string PyVal :=
    list_to_map
      [ ("recording_dict", dump_dict_container);
        ("sorter_name", PyStr sorter_name);
        ("output_folder", PyStr output_folder);
        ("delete_output_folder", PyBool false);
        ("grouping_property", grouping_property opts);
        ("parallel", parallel opts);
        ("verbose", verbose opts);
        ("raise_error", raise_error opts);
        ("n_jobs", n_jobs opts);
        ("joblib_backend", joblib_backend opts) ] in
  (* kwargs.update(params) *)
  let kwargs := params ∪ kwargs in
  (* kwargs.update({'input_directory': ..., 'output_directory': ...}) *)
  <["output_directory" := PyStr output_folder]>
    (<["input_directory" := PyStr input_directory]> kwargs).

(** [Path(output_folder).absolute()] *)
Definition Path_absolute (folder : PyVal) : M string :=
  match folder with
  | PyStr s => ret (absolute env s)
  | _ => raise (TypeError "expected str, bytes or os.PathLike object")
  end.

Definition not_dumpable : string :=
  "Cannot run not dumpable recordings in docker".

(** The definition of [_run_sorter_hither] under [if HAVE_DOCKER:]. *)
Definition _run_sorter_hither_docker (sorter_name : string) (recording : Recording)
    (opts : Options) (params : gmap string PyVal) : M Sorting :=
  py_assert (is_dumpable recording) not_dumpable >>
  let output_folder :=
    match output_folder opts with
    | PyNone => PyStr (sorter_name +:+ "_output")
    | folder => folder
    end in
  let* output_folder := Path_absolute output_folder in
  mkdir output_folder >>
  let* (dump_dict_container, input_directory) :=
    lift (modify_input_folder env (dump_to_dict env recording) "/input") in
  let kwargs := job_kwargs dump_dict_container sorter_name output_folder input_directory opts params in
  hither_Job_wait env kwargs >>
  let* sorting := NpzSortingExtractor (path_join output_folder "sorting_docker.npz") in
  (if truthy (delete_output_folder opts) then rmtree output_folder else ret tt) >>
  ret sorting.

(** [_run_sorter_hither]: which of the two definitions the module has
    depends on [HAVE_DOCKER]. *)
Definition _run_sorter_hither (sorter_name : string) (recording : Recording)
    (opts : Options) (params : gmap string PyVal) : M Sorting :=
  if HAVE_DOCKER env then _run_sorter_hither_docker sorter_name recording opts params
  else raise NotImplementedError.

Definition docker_missing : string :=
  "To run in docker, install docker on your system and >>> pip install hither docker".

Definition run_sorter (sorter_name_or_class : PyVal) (recording : Recording)
    (use_docker : PyVal) (opts : Options) (params : gmap string PyVal) : M Sorting :=
  if truthy use_docker then
    py_assert (HAVE_DOCKER env) docker_missing >>
    (* we need sorter name here *)
    let* sorter_name :=
      match sorter_name_or_class with
      | PyStr name => ret name
      | PyCls c =>
          if bool_decide (c ∈ Registry.sorter_full_list) then ret (Registry.sorter_name env c)
          else raise (ValueError "Unknown sorter")
      | _ => raise (ValueError "Unknown sorter")
      end in
    _run_sorter_hither sorter_name recording opts params
  else
    _run_sorter_local sorter_name_or_class recording opts params.

End defs.
End Sorterlist.

(** ** The error kinds of the specification, on the exceptions of the code *)




(** A first argument of [run_sorter] that names no registered class. *)
Definition unregistered (env : Env) (sorter_name_or_class : PyVal) : Prop :=
  match sorter_name_or_class with
  | PyStr name => Registry.sorter_dict env !! name = None
  | PyCls c => c ∉ Registry.sorter_full_list
  | _ => True
  end.

(** ** A stub environment

    Concrete collaborators, to run the embedded code on: a sorter that
    always finds the same three events in two units, a curation that drops
    unit 2, one-byte-per-field file formats, and a container job that
    leaves a result archive in the output directory. *)

Module Stub.

(** The names the [run_hdsort], [run_klusta], ... wrappers at the end of
    sorterlist.py pass to [run_sorter]. *)
Definition wrapper_name (c : PyClass) : string :=
  match c with
  | HDSortSorter => "hdsort"
  | KlustaSorter => "klusta"
  | TridesclousSorter => "tridesclous"
  | Mountainsort4Sorter => "mountainsort4"
  | IronClustSorter => "ironclust"
  | KilosortSorter => "kilosort"
  | Kilosort2Sorter => "kilosort2"
  | Kilosort2_5Sorter => "kilosort2_5"
  | Kilosort3Sorter => "kilosort3"
  | SpykingcircusSorter => "spykingcircus"
  | HerdingspikesSorter => "herdingspikes"
  | WaveClusSorter => "waveclus"
  | YassSorter => "yass"
  | CombinatoSorter => "combinato"
  | OtherClass _ => "other"
  end.

Definition byte (z : Z) : Ascii.ascii := Ascii.ascii_of_N (Z.to_N z).
Definition unbyte (a : Ascii.ascii) : Z := Z.of_N (Ascii.N_of_ascii a).

Fixpoint encode_rows (rows : list (Z * Z)) : string :=
  match rows with
  | [] => ""
  | (t, l) :: rows => String (byte t) (String (byte l) (encode_rows rows))
  end.

Fixpoint decode_rows (data : string) : outcome (list (Z * Z)) :=
  match data with
  | "" => Ok []
  | String a (String b data) =>
      match decode_rows data with
      | Ok rows => Ok ((unbyte a, unbyte b) :: rows)
      | Raised e => Raised e
      end
  | _ => Raised (CollaboratorError "truncated file")
  end.

Definition rate : float := 30000%float.

Definition init (c : PyClass) (recording : Recording)
    (output_folder grouping_property verbose delete_output_folder : PyVal) : M Sorter :=
  let folder := match output_folder with PyStr s => s | _ => "tmp_output" end in
  mkdir folder >> ret (mkSorter c ∅ verbose).

(** The job: the image is looked up by the sorter name, then the archive
    appears in the output directory. *)
Definition job (kwargs : gmap string PyVal) : M unit :=
  match kwargs !! "sorter_name", kwargs !! "output_directory" with
  | Some (PyStr name), Some (PyStr out) =>
      if decide (name = "mountainsort4")
      then write_file (λ _, None) (out +:+ "/sorting_docker.npz") (encode_rows [(10, 0)]%Z)
      else raise (KeyError (PyStr name))
  | _, _ => raise (CollaboratorError "job failed")
  end.

Definition env (have_docker : bool) : Env :=
  {| other_sorter_name := wrapper_name;
     other_compatible_with_parallel := λ _, {[ "loky" := true ]};
     class_is_installed := λ c, bool_decide (c = Mountainsort4Sorter);
     HAVE_DOCKER := have_docker;
     default_docker_images := {[ "mountainsort4" := "mountainsort4-image" ]};
     modify_input_folder := λ d _, Ok (d, "/data/recording");
     recover_recording := λ r, r;
     BaseSorter_init := init;
     BaseSorter_set_params := λ s p, ret (mkSorter (sorter_class s) p (verbose s));
     BaseSorter_run_partitions := λ _ _ _ _ _, ret tt;
     BaseSorter_get_result := λ _ _, ret (mkSorting [(10, 0)]%Z (Some rate));
     bandpass_filter := λ r _ _,
       Ok (mkRecording (rec_tag r +:+ "+bandpass") true (is_dumpable r) (get_sampling_frequency r));
     whiten := λ r,
       Ok (mkRecording (rec_tag r +:+ "+whiten") (is_filtered r) (is_dumpable r) (get_sampling_frequency r));
     mountainsort4 := λ _ _, Ok (mkSorting [(10, 1); (20, 2); (30, 1)]%Z None);
     mountainsort4_curation := λ _ s _,
       Ok (mkSorting (filter (λ row, row.2 ≠ 2%Z) (firings s)) None);
     mda_encode := encode_rows;
     mda_decode := decode_rows;
     npz_encode := λ s, encode_rows (firings s);
     npz_decode := λ data,
       match decode_rows data with
       | Ok rows => Ok (mkSorting rows (Some rate))
       | Raised e => Raised e
       end;
     dump_to_dict := λ r, PyOpaque (rec_tag r);
     load_extractor_from_dict := λ _, Ok (mkRecording "loaded" false true rate);
     format_float := λ f, if PrimFloat.eqb f rate then "30000.0" else "nan";
     parse_float := λ s,
       if decide (s = "30000.0") then Ok rate
       else Raised (ValueError "could not convert string to float");
     absolute := λ s, if String.prefix "/" s then s else "/home/user/" +:+ s;
     hither_Job_wait := job;
     elapsed := "1.0";
     open_denied := λ _, None;
     mda_write_error := λ _ _, None;
     npz_write_error := λ _ _, None |}.

Definition recording (dumpable filtered : bool) : Recording :=
  mkRecording "recording" filtered dumpable rate.

Definition empty_world : World := mkWorld ∅ [].

(** A Mountainsort4Sorter with the default parameters, and one with the
    curation switched on. *)
Definition sorter : Sorter :=
  mkSorter Mountainsort4Sorter Mountainsort4._default_params (PyBool false).


End Stub.

(** ** sorterlist.py: versions, descriptions and the per-sorter wrappers *)

(** What the remaining functions of sorterlist.py ask of a sorter class:
    the class methods [default_params()] and [params_description()] of
    basesorter.py, the attribute [sorter_description], and the version
    probe [get_sorter_version()], which may raise. *)
Record ClassInfo := mkClassInfo {
  default_params : PyClass → gmap string PyVal;
  params_description : PyClass → gmap string string;
  sorter_description : PyClass → string;
  get_sorter_version : PyClass → outcome string
}.

Module Listing.
Section defs.
Context (env : Env) (info : ClassInfo).

(** The line feed of ['{}: {}\n'] *)
Definition newline : string := String (Ascii.ascii_of_nat 10) "".

(** [txt[:-1]]: all but the last character; the empty string stays empty. *)
Fixpoint drop_last (txt : string) : string :=
  match txt with
  | "" => ""
  | String a rest =>
      match rest with
      | "" => ""
      | _ => String a (drop_last rest)
      end
  end.

(** The loop of [print_sorter_versions], from the text built so far. *)
Fixpoint versions_text (names : list string) (txt : string) : M string :=
  match names with
  | [] => ret txt
  | name :: names =>
      let* SorterClass := getitem (Registry.sorter_dict env) name in
      let* version := lift (get_sorter_version info SorterClass) in
      versions_text names (txt +:+ name +:+ ": " +:+ version +:+ newline)
  end.

Definition print_sorter_versions : M unit :=
  let* txt := versions_text (Registry.installed_sorters env) "" in
  let txt := drop_last txt in
  print txt.





(** The wrapper [run_mountainsort4]: [run_sorter] with the name fixed. *)
Definition run_mountainsort4 (recording : Recording) (use_docker : PyVal)
    (opts : Sorterlist.Options) (params : gmap string PyVal) : M Sorting :=
  Sorterlist.run_sorter env (PyStr "mountainsort4") recording use_docker opts params.

End defs.
End Listing.

(** The dictionary literal [dict(recording_dict=..., ...)] at the start of
    the [with] block of [_run_sorter_hither], before the two updates. *)
Definition job_dict_literal (dump_dict_container : PyVal) (sorter_name output_folder : string)
    (opts : Sorterlist.Options) : gmap string PyVal :=
  list_to_map
    [ ("recording_dict", dump_dict_container);
      ("sorter_name", PyStr sorter_name);
      ("output_folder", PyStr output_folder);
      ("delete_output_folder", PyBool false);
      ("grouping_property", Sorterlist.grouping_property opts);
      ("parallel", Sorterlist.parallel opts);
      ("verbose", Sorterlist.verbose opts);
      ("raise_error", Sorterlist.raise_error opts);
      ("n_jobs", Sorterlist.n_jobs opts);
      ("joblib_backend", Sorterlist.joblib_backend opts) ].

(** The calls to [whiten] in a stretch of the trace. *)
Definition whiten_calls (t : list Event) : list Recording :=
  omap (λ ev, match ev with EvWhiten r => Some r | _ => None end) t.

(** The positional arguments hither binds before [**kwargs] when it calls
    [run_sorter_docker_with_container]. *)
Definition job_function_named : list string :=
  ["recording_dict"; "sorter_name"; "input_directory"; "output_directory"].

(** Class information to run the listing functions on: every class
    answers its version probe. *)
Module StubInfo.

Definition info : ClassInfo :=
  {| default_params := λ c,
       match c with
       | Mountainsort4Sorter => Mountainsort4._default_params
       | _ => ∅
       end;
     params_description := λ _, ∅;
     sorter_description := λ c, Stub.wrapper_name c +:+ " sorter";
     get_sorter_version := λ c, Ok ("1." +:+ Stub.wrapper_name c) |}.

(** [base] with other answers to [is_installed()] and another sorter. *)
Definition with_sorter (base : Env) (installed : PyClass → bool)
    (sort : Recording → list PyVal → outcome Sorting) : Env :=
  {| other_sorter_name := other_sorter_name base;
     other_compatible_with_parallel := other_compatible_with_parallel base;
     class_is_installed := installed;
     HAVE_DOCKER := HAVE_DOCKER base;
     default_docker_images := default_docker_images base;
     modify_input_folder := modify_input_folder base;
     recover_recording := recover_recording base;
     BaseSorter_init := BaseSorter_init base;
     BaseSorter_set_params := BaseSorter_set_params base;
     BaseSorter_run_partitions := BaseSorter_run_partitions base;
     BaseSorter_get_result := BaseSorter_get_result base;
     bandpass_filter := bandpass_filter base;
     whiten := whiten base;
     mountainsort4 := sort;
     mountainsort4_curation := mountainsort4_curation base;
     mda_encode := mda_encode base;
     mda_decode := mda_decode base;
     npz_encode := npz_encode base;
     npz_decode := npz_decode base;
     dump_to_dict := dump_to_dict base;
     load_extractor_from_dict := load_extractor_from_dict base;
     format_float := format_float base;
     parse_float := parse_float base;
     absolute := absolute base;
     hither_Job_wait := hither_Job_wait base;
     elapsed := elapsed base;
     open_denied := open_denied base;
     mda_write_error := mda_write_error base;
     npz_write_error := npz_write_error base |}.

(** An environment in which two more sorters are installed. *)
Definition env : Env :=
  with_sorter (Stub.env false)
    (λ c, bool_decide (c ∈ [Mountainsort4Sorter; KlustaSorter; YassSorter]))
    (mountainsort4 (Stub.env false)).


End StubInfo.

(** ** A stand-in for hither2

    Running a job the way [hither.Job(...).wait()] does with
    [use_container=True]: the hook prepares the context, the job function
    runs on a file system of its own, and what it wrote below a writable
    mount shows up under the mount's source on the host. *)

Module StubHither.

(** The part of [p] below the directory [dir], with its leading slash. *)
Definition below (dir p : string) : option string :=
  if String.prefix (dir +:+ "/") p
  then Some (String.substring (String.length dir)
               (String.length p - String.length dir) p)
  else None.

(** Where a container path is on the host. *)
Fixpoint to_host (mounts : list Sorterlist.BindMount) (p : string) : option string :=
  match mounts with
  | [] => None
  | m :: mounts =>
      match Sorterlist.read_only m, Sorterlist.source m, below (Sorterlist.target m) p with
      | false, PyStr src, Some rest => Some (src +:+ rest)
      | _, _, _ => to_host mounts p
      end
  end.

Definition copy_out (mounts : list Sorterlist.BindMount)
    (container host : gmap string Node) : gmap string Node :=
  foldr (λ entry host,
           match to_host mounts entry.1 with
           | Some p => <[p := entry.2]> host
           | None => host
           end)
        host (map_to_list container).

Definition Job_wait (kwargs : gmap string PyVal) : M unit :=
  match Sorterlist.precontainer (Stub.env true) (Sorterlist.mkContext kwargs [] None) with
  | (Raised e, _) => raise e
  | (Ok _, context) =>
      let kwargs := Sorterlist.kwargs context in
      match kwargs !! "recording_dict", kwargs !! "sorter_name",
            kwargs !! "input_directory", kwargs !! "output_directory" with
      | Some recording_dict, Some (PyStr sorter_name),
        Some (PyStr input_directory), Some (PyStr output_directory) =>
          match Sorterlist.run_sorter_docker_with_container (Stub.env false)
                  recording_dict sorter_name input_directory output_directory
                  (kwrest kwargs job_function_named) Stub.empty_world with
          | (Raised e, _) => raise e
          | (Ok _, inside) =>
              modify (λ w, mkWorld
                             (copy_out (Sorterlist.bind_mounts context) (fs inside) (fs w))
                             (trace w))
          end
      | _, _, _, _ => raise (TypeError "missing argument")
      end
  end.

(** The stub environment with docker, its jobs run by [Job_wait]. *)
Definition env : Env :=
  {| other_sorter_name := other_sorter_name (Stub.env true);
     other_compatible_with_parallel := other_compatible_with_parallel (Stub.env true);
     class_is_installed := class_is_installed (Stub.env true);
     HAVE_DOCKER := true;
     default_docker_images := default_docker_images (Stub.env true);
     modify_input_folder := modify_input_folder (Stub.env true);
     recover_recording := recover_recording (Stub.env true);
     BaseSorter_init := BaseSorter_init (Stub.env true);
     BaseSorter_set_params := BaseSorter_set_params (Stub.env true);
     BaseSorter_run_partitions := BaseSorter_run_partitions (Stub.env true);
     BaseSorter_get_result := BaseSorter_get_result (Stub.env true);
     bandpass_filter := bandpass_filter (Stub.env true);
     whiten := whiten (Stub.env true);
     mountainsort4 := mountainsort4 (Stub.env true);
     mountainsort4_curation := mountainsort4_curation (Stub.env true);
     mda_encode := mda_encode (Stub.env true);
     mda_decode := mda_decode (Stub.env true);
     npz_encode := npz_encode (Stub.env true);
     npz_decode := npz_decode (Stub.env true);
     dump_to_dict := dump_to_dict (Stub.env true);
     load_extractor_from_dict := load_extractor_from_dict (Stub.env true);
     format_float := format_float (Stub.env true);
     parse_float := parse_float (Stub.env true);
     absolute := absolute (Stub.env true);
     hither_Job_wait := Job_wait;
     elapsed := elapsed (Stub.env true);
     open_denied := open_denied (Stub.env true);
     mda_write_error := mda_write_error (Stub.env true);
     npz_write_error := npz_write_error (Stub.env true) |}.

End StubHither.

(** * Properties *)

(** ** The registry *)

Section registry_facts.
Context (env : Env).
Import Registry.

Lemma dict_by_name_lookup classes d k :
  is_Some (dict_by_name env classes d !! k) ↔
  (∃ c, c ∈ classes ∧ sorter_name env c = k) ∨ is_Some (d !! k).
Proof.
  revert d. induction classes as [|x l IH]; intros d; simpl.
  - split; [auto | intros [(c & Hc & _) | H]; [inversion Hc | done]].
  - rewrite IH. rewrite lookup_insert_is_Some. split.
    + intros [(c & Hc & Hk) | [Hk | [_ Hd]]].
      * left. exists c. split; [by right | done].
      * left. exists x. split; [by left | done].
      * by right.
    + intros [(c & Hc & Hk) | Hd].
      * apply elem_of_cons in Hc as [-> | Hc];
          [right; by left | left; by exists c].
      * destruct (decide (sorter_name env x = k)); right; [by left | by right].
Qed.

Lemma dict_by_name_fresh classes d k :
  k ∉ sorter_name env <$> classes → dict_by_name env classes d !! k = d !! k.
Proof.
  revert d. induction classes as [|x l IH]; intros d Hk; simpl; [done|].
  rewrite fmap_cons in Hk. apply not_elem_of_cons in Hk as [Hx Hl].
  rewrite IH by done. by rewrite lookup_insert_ne.
Qed.

Lemma dict_by_name_unique classes d c :
  NoDup (sorter_name env <$> classes) → c ∈ classes →
  dict_by_name env classes d !! sorter_name env c = Some c.
Proof.
  revert d. induction classes as [|x l IH]; intros d Hnd Hc; simpl.
  - inversion Hc.
  - rewrite fmap_cons in Hnd. apply NoDup_cons in Hnd as [Hx Hl].
    apply elem_of_cons in Hc as [-> | Hc].
    + rewrite dict_by_name_fresh by done. by rewrite lookup_insert_eq.
    + by apply IH.
Qed.

Lemma sorter_dict_None name :
  sorter_dict env !! name = None ↔
  ∀ c, c ∈ sorter_full_list → sorter_name env c ≠ name.
Proof.
  rewrite eq_None_not_Some. unfold sorter_dict. rewrite dict_by_name_lookup.
  rewrite lookup_empty. split.
  - intros Hn c Hc Hk. apply Hn. left. by exists c.
  - intros Hn [(c & Hc & Hk) | [? ?]]; [by apply (Hn c) | done].
Qed.

Lemma elem_of_sorted s xs : s ∈ sorted xs ↔ s ∈ xs.
Proof. unfold sorted. by rewrite merge_sort_Permutation. Qed.

Lemma elem_of_available_sorters s :
  s ∈ available_sorters env ↔ ∃ c, c ∈ sorter_full_list ∧ sorter_name env c = s.
Proof.
  unfold available_sorters. rewrite elem_of_sorted.
  rewrite list_elem_of_fmap. split.
  - intros ([k c] & -> & Hkc). apply elem_of_map_to_list in Hkc.
    assert (is_Some (sorter_dict env !! k)) as Hs by eauto.
    apply dict_by_name_lookup in Hs as [Hs | Hs]; [done|].
    rewrite lookup_empty in Hs. by destruct Hs.
  - intros (c & Hc & Hk).
    assert (is_Some (sorter_dict env !! s)) as [c' Hc'].
    { apply dict_by_name_lookup. left. by exists c. }
    exists (s, c'). split; [done|]. by apply elem_of_map_to_list.
Qed.

(** C10: [available_sorters()] is sorted and holds exactly the names of
    the classes of [sorter_full_list]; [installed_sorters()] is sorted; and
    whatever the classes' [is_installed()] answer, every installed sorter
    is an available one. *)
Theorem available_and_installed_sorters :
  Sorted String.le (available_sorters env) ∧
  (∀ s, s ∈ available_sorters env ↔
        ∃ c, c ∈ sorter_full_list ∧ sorter_name env c = s) ∧
  Sorted String.le (installed_sorters env) ∧
  (∀ s, s ∈ installed_sorters env → s ∈ available_sorters env).
Proof.
  split; [apply Sorted_merge_sort, _|].
  split; [apply elem_of_available_sorters|].
  split; [apply Sorted_merge_sort, _|].
  intros s. unfold installed_sorters. rewrite elem_of_sorted.
  rewrite list_elem_of_fmap. intros (c & -> & Hc).
  apply list_elem_of_filter in Hc as [_ Hc].
  apply elem_of_available_sorters. by exists c.
Qed.

End registry_facts.

(** ** The Mountainsort4 backend *)

(** Running the monad: one step of [bind], case analysis on whatever
    blocks the computation (a dictionary lookup, a collaborator's answer,
    a flag). *)
Ltac run_case :=
  match goal with
  | |- context [match ?x with _ => _ end] =>
      lazymatch x with
      | context [match _ with _ => _ end] => fail
      | _ => destruct x eqn:?; cbn beta iota zeta delta [fs trace fst snd andb]
      end
  end.

Ltac run_unfold :=
  cbv beta iota zeta delta
    [bind ret raise lift modify get emit print call py_assert py_and getitem write_file];
  cbn beta iota zeta delta [fs trace fst snd andb].

Ltac run_goal := run_unfold; repeat run_case.

Section mountainsort4_facts.
Context (env : Env).
Import Mountainsort4.

Lemma firings_not_samplerate folder :
  path_join folder "firings.mda" ≠ path_join folder "samplerate.txt".
Proof.
  unfold path_join. repeat case_decide; try discriminate.
  intros Heq. by apply (inj (String.app folder)) in Heq.
Qed.




End mountainsort4_facts.






(** ** The dispatcher and the launchers *)

Section dispatch_facts.
Context (env : Env).
Import Registry Sorterlist.


(** C3: when no two classes of [sorter_full_list] share a name, the name
    of a registered class looks up that class, and [run_sorter] called
    with the name is the same computation as [run_sorter] called with the
    class: same outcome and same final world from every world, with or
    without docker. *)
Theorem name_and_class_agree c recording use_docker opts params w :
  NoDup (sorter_name env <$> sorter_full_list) →
  c ∈ sorter_full_list →
  sorter_dict env !! sorter_name env c = Some c ∧
  run_sorter env (PyStr (sorter_name env c)) recording use_docker opts params w =
  run_sorter env (PyCls c) recording use_docker opts params w.
Proof.
  intros Hnd Hc.
  assert (sorter_dict env !! sorter_name env c = Some c) as Hdict
    by by apply dict_by_name_unique.
  split; [done|].
  unfold run_sorter, _run_sorter_local.
  rewrite bool_decide_eq_true_2 by done.
  destruct (truthy use_docker); [done|].
  unfold bind at 1 3. unfold getitem. by rewrite Hdict.
Qed.



Lemma job_kwargs_directories d name out inp opts params :
  job_kwargs d name out inp opts params !! "output_directory" = Some (PyStr out) ∧
  job_kwargs d name out inp opts params !! "input_directory" = Some (PyStr inp).
Proof.
  unfold job_kwargs. split.
  - by rewrite lookup_insert_eq.
  - rewrite lookup_insert_ne by done. by rewrite lookup_insert_eq.
Qed.

Lemma precontainer_spec ctx i o name img :
  kwargs ctx !! "input_directory" = Some i →
  kwargs ctx !! "output_directory" = Some o →
  kwargs ctx !! "sorter_name" = Some (PyStr name) →
  default_docker_images env !! name = Some img →
  precontainer env ctx =
    (Ok tt,
     mkContext
       (<["input_directory" := PyStr "/input"]>
          (<["output_directory" := PyStr "/output"]> (kwargs ctx)))
       (bind_mounts ctx ++ [mkBindMount i "/input" true; mkBindMount o "/output" false])
       (Some img)).
Proof.
  intros Hi Ho Hn Himg.
  unfold precontainer, get_kwarg, add_bind_mount, set_image, set_kwarg, docker_image.
  cbv [bind ret raise lift modify get getitem]. simpl.
  rewrite Hi, Ho. simpl. rewrite Hn. simpl. rewrite Himg. simpl.
  by rewrite <- (assoc_L (++)).
Qed.

Lemma job_kwargs_sorter_name d name out inp opts (params : gmap string PyVal) :
  params !! "sorter_name" = None →
  job_kwargs d name out inp opts params !! "sorter_name" = Some (PyStr name).
Proof.
  intros Hp. unfold job_kwargs.
  rewrite !lookup_insert_ne by done.
  rewrite lookup_union_r by done. reflexivity.
Qed.

Lemma job_function_runs d name inp outd kw w recording sorting w1 :
  let archive := outd +:+ "/sorting_docker.npz" in
  load_extractor_from_dict env d = Ok recording →
  _run_sorter_local env (PyStr name) recording
    (bind_options (<["output_folder" := PyStr (outd +:+ "/working")]> kw)).1
    (bind_options (<["output_folder" := PyStr (outd +:+ "/working")]> kw)).2 w
    = (Ok sorting, w1) →
  npz_write_error env sorting archive = None →
  open_denied env archive = None →
  fs w1 !! archive ≠ Some Dir →
  run_sorter_docker_with_container env d name inp outd kw w =
    (Ok tt,
     mkWorld (<[archive := File (npz_encode env sorting)]> (fs w1))
       (trace w1 ++ [EvPrint (name +:+ " run time " +:+ elapsed env +:+ "s");
                     EvWrite archive])).
Proof.
  intros archive Hload Hlocal Hlib Hos Hdir.
  unfold run_sorter_docker_with_container, NpzSortingExtractor_write_sorting, write_file.
  fold archive.
  destruct (bind_options _) as [opts params] eqn:Hb. simpl in Hlocal.
  unfold bind at 1. unfold lift. rewrite Hload.
  unfold bind at 1. rewrite Hlocal. rewrite Hlib, Hos.
  cbv [bind ret raise lift modify get emit print]. simpl.
  destruct (fs w1 !! archive) as [[|data]|] eqn:Hfile; [done|..];
    cbn [fs trace]; by rewrite <- (assoc_L (++)).
Qed.

(** C6: the hook mounts the job's input directory at /input read-only and
    its output directory at /output read-write, picks the image by the
    sorter name, and rewrites the two directory arguments to /input and
    /output; the directories of the job that [_run_sorter_hither] submits
    are the host's input directory and output folder, so these are what
    is mounted.  The job function, once the recording is loaded and the
    sorter has succeeded in [output_directory/working], prints the run time
    and writes the archive [output_directory/sorting_docker.npz], unless
    the writer or the operating system refuses; and that is the only way
    it succeeds: when it does, it has run the sorter in
    [output_directory/working] and then written one file, the archive.
    The host, when the launcher succeeds, has read [sorting_docker.npz]
    from its output folder after the job, and returns what that file
    decodes to. *)
Theorem container_job_mounts_and_archive :
  (∀ ctx i o name img,
     kwargs ctx !! "input_directory" = Some i →
     kwargs ctx !! "output_directory" = Some o →
     kwargs ctx !! "sorter_name" = Some (PyStr name) →
     default_docker_images env !! name = Some img →
     precontainer env ctx =
       (Ok tt,
        mkContext
          (<["input_directory" := PyStr "/input"]>
             (<["output_directory" := PyStr "/output"]> (kwargs ctx)))
          (bind_mounts ctx ++ [mkBindMount i "/input" true; mkBindMount o "/output" false])
          (Some img))) ∧
  (∀ d name out inp opts params,
     job_kwargs d name out inp opts params !! "output_directory" = Some (PyStr out) ∧
     job_kwargs d name out inp opts params !! "input_directory" = Some (PyStr inp)) ∧
  (∀ d name out inp opts params img,
     params !! "sorter_name" = None →
     default_docker_images env !! name = Some img →
     ∃ kwargs',
       precontainer env (mkContext (job_kwargs d name out inp opts params) [] None) =
         (Ok tt,
          mkContext kwargs'
            [mkBindMount (PyStr inp) "/input" true; mkBindMount (PyStr out) "/output" false]
            (Some img)) ∧
       kwargs' !! "input_directory" = Some (PyStr "/input") ∧
       kwargs' !! "output_directory" = Some (PyStr "/output")) ∧
  (∀ d name inp outd kw w recording sorting w1,
     load_extractor_from_dict env d = Ok recording →
     _run_sorter_local env (PyStr name) recording
       (bind_options (<["output_folder" := PyStr (outd +:+ "/working")]> kw)).1
       (bind_options (<["output_folder" := PyStr (outd +:+ "/working")]> kw)).2 w
       = (Ok sorting, w1) →
     npz_write_error env sorting (outd +:+ "/sorting_docker.npz") = None →
     open_denied env (outd +:+ "/sorting_docker.npz") = None →
     fs w1 !! (outd +:+ "/sorting_docker.npz") ≠ Some Dir →
     run_sorter_docker_with_container env d name inp outd kw w =
       (Ok tt,
        mkWorld
          (<[outd +:+ "/sorting_docker.npz" := File (npz_encode env sorting)]> (fs w1))
          (trace w1 ++ [EvPrint (name +:+ " run time " +:+ elapsed env +:+ "s");
                        EvWrite (outd +:+ "/sorting_docker.npz")]))) ∧
  (∀ d name inp outd kw w w',
     run_sorter_docker_with_container env d name inp outd kw w = (Ok tt, w') →
     ∃ recording sorting w1,
       load_extractor_from_dict env d = Ok recording ∧
       _run_sorter_local env (PyStr name) recording
         (bind_options (<["output_folder" := PyStr (outd +:+ "/working")]> kw)).1
         (bind_options (<["output_folder" := PyStr (outd +:+ "/working")]> kw)).2 w
         = (Ok sorting, w1) ∧
       written_paths (drop (length (trace w1)) (trace w')) = [outd +:+ "/sorting_docker.npz"] ∧
       fs w' = <[outd +:+ "/sorting_docker.npz" := File (npz_encode env sorting)]> (fs w1)) ∧
  (∀ name recording opts params w sorting w',
     _run_sorter_hither_docker env name recording opts params w = (Ok sorting, w') →
     ∃ folder d inp w0 wj data,
       (output_folder opts = PyStr folder ∨
        output_folder opts = PyNone ∧ folder = name +:+ "_output") ∧
       mkdir (absolute env folder) w = (Ok tt, w0) ∧
       modify_input_folder env (dump_to_dict env recording) "/input" = Ok (d, inp) ∧
       hither_Job_wait env (job_kwargs d name (absolute env folder) inp opts params) w0
         = (Ok tt, wj) ∧
       fs wj !! path_join (absolute env folder) "sorting_docker.npz" = Some (File data) ∧
       npz_decode env data = Ok sorting ∧
       read_paths (drop (length (trace wj)) (trace w'))
         = [path_join (absolute env folder) "sorting_docker.npz"]).
Proof.
  split_and!.
  - apply precontainer_spec.
  - apply job_kwargs_directories.
  - intros d name out inp opts params img Hp Himg.
    destruct (job_kwargs_directories d name out inp opts params) as [Ho Hi].
    eexists. split.
    + erewrite precontainer_spec;
        [reflexivity | exact Hi | exact Ho | by apply job_kwargs_sorter_name | done].
    + split; [by rewrite lookup_insert_eq|].
      rewrite lookup_insert_ne by done. by rewrite lookup_insert_eq.
  - intros d name inp outd kw w recording sorting w1. apply job_function_runs.
  - intros d name inp outd kw w w'.
    unfold run_sorter_docker_with_container, NpzSortingExtractor_write_sorting, write_file.
    destruct (bind_options _) as [opts params] eqn:Hb. simpl.
    unfold bind at 1. unfold lift.
    destruct (load_extractor_from_dict env d) as [recording|]; [|done].
    unfold bind at 1.
    destruct (_run_sorter_local _ _ _ _ _ _) as [[sorting|] w1] eqn:Hlocal; [|done].
    destruct (npz_write_error env sorting _); [done|].
    destruct (open_denied env _); [done|].
    cbv [bind ret raise lift modify get emit print]. simpl.
    destruct (fs w1 !! _) as [[|data]|] eqn:Hfile; [done|..]; intros [= <-];
      exists recording, sorting, w1; (split_and!; [done..| |done]);
      simpl; rewrite <- (assoc_L (++)); by rewrite drop_app_length.
  - intros name recording opts params w sorting w'.
    unfold _run_sorter_hither_docker, py_assert.
    destruct (is_dumpable recording); [|done].
    unfold bind at 1. unfold ret at 1.
    assert ((∃ folder,
       (output_folder opts = PyStr folder ∨
        output_folder opts = PyNone ∧ folder = name +:+ "_output") ∧
       Path_absolute env
         match output_folder opts with
         | PyNone => PyStr (name +:+ "_output")
         | folder => folder
         end = ret (absolute env folder)) ∨
       (∃ e, Path_absolute env
         match output_folder opts with
         | PyNone => PyStr (name +:+ "_output")
         | folder => folder
         end = raise e)) as Hpath.
    { destruct (output_folder opts); simpl; eauto 10. }
    destruct Hpath as [(folder & Hfolder & ->) | [e ->]]; [|done].
    unfold bind at 1. unfold ret at 1.
    unfold bind at 1.
    destruct (mkdir (absolute env folder) w) as [[[]|] w0] eqn:Hmk; [|done].
    unfold bind at 1. unfold lift at 1.
    destruct (modify_input_folder _ _ _) as [[d inp]|] eqn:Hin; [|done].
    unfold bind at 1.
    destruct (hither_Job_wait _ _ _) as [[[]|] wj] eqn:Hjob; [|done].
    unfold NpzSortingExtractor, read_file, rmtree.
    cbv [bind ret raise lift modify get emit]. simpl.
    destruct (fs wj !! _) as [[|data]|] eqn:Hfile; try done.
    destruct (npz_decode env data) as [s|] eqn:Hdec; [|done].
    intros Hres.
    exists folder, d, inp, w0, wj, data. split_and!; try done.
    + destruct (truthy _); by simplify_eq.
    + destruct (truthy _); simplify_eq; simpl.
      * rewrite <- (assoc_L (++)). by rewrite drop_app_length.
      * by rewrite drop_app_length.
Qed.

(** C8: in a parallel run, a worker-pool backend that the class's
    [compatible_with_parallel] marks [False] is rejected with
    UnsupportedConcurrencyModel and nothing is done; one marked [True] goes
    on to the partition work.  For Mountainsort4Sorter 'multiprocessing'
    and 'threading' are marked [False] and 'loky' [True].  In the local
    launcher the rejection comes right after [set_params]: the world is
    the one [set_params] left. *)
Theorem pool_backend_gate sorter raise_err par jobs backend w :
  truthy par = true →
  (compatible_with_parallel env (sorter_class sorter) !! backend = Some false →
   BaseSorter_run env sorter raise_err par jobs (PyStr backend) w =
     (Raised UnsupportedConcurrencyModel, w)) ∧
  (compatible_with_parallel env (sorter_class sorter) !! backend = Some true →
   BaseSorter_run env sorter raise_err par jobs (PyStr backend) w =
     BaseSorter_run_partitions env sorter raise_err par jobs (PyStr backend) w) ∧
  compatible_with_parallel env Mountainsort4Sorter !! "multiprocessing" = Some false ∧
  compatible_with_parallel env Mountainsort4Sorter !! "threading" = Some false ∧
  compatible_with_parallel env Mountainsort4Sorter !! "loky" = Some true ∧
  (∀ x recording opts params w0 SorterClass s1 w1,
     parallel opts = par → joblib_backend opts = PyStr backend →
     compatible_with_parallel env (sorter_class sorter) !! backend = Some false →
     (x = PyStr (sorter_name env SorterClass) ∧
        sorter_dict env !! sorter_name env SorterClass = Some SorterClass ∨
      x = PyCls SorterClass ∧ SorterClass ∈ sorter_full_list) →
     BaseSorter_init env SorterClass recording (output_folder opts)
       (grouping_property opts) (verbose opts) (delete_output_folder opts) w0 = (Ok s1, w1) →
     BaseSorter_set_params env s1 params w1 = (Ok sorter, w) →
     _run_sorter_local env x recording opts params w0 =
       (Raised UnsupportedConcurrencyModel, w)).
Proof.
  intros Hpar. unfold BaseSorter_run. rewrite Hpar. split_and!.
  - by intros ->.
  - by intros ->.
  - done.
  - done.
  - done.
  - intros x recording opts params w0 c s1 w1 Hp Hb Hflag Hx Hinit Hset.
    unfold _run_sorter_local.
    assert (match x with
            | PyStr name => getitem (sorter_dict env) name
            | PyCls c =>
                if bool_decide (c ∈ sorter_full_list) then ret c
                else raise (ValueError "Unknown sorter")
            | _ => raise (ValueError "Unknown sorter")
            end = (ret c : M PyClass)) as ->.
    { destruct Hx as [[-> Hd] | [-> Hc]].
      - unfold getitem. by rewrite Hd.
      - by rewrite bool_decide_eq_true_2. }
    unfold bind at 1. unfold ret at 1.
    unfold bind at 1. rewrite Hinit.
    unfold bind at 1. rewrite Hset.
    unfold bind at 1. unfold BaseSorter_run. rewrite Hp, Hpar, Hb, Hflag. done.
Qed.

End dispatch_facts.


(** With docker present, a string goes to the launcher without being
    looked up: the output folder is made before anything fails. *)
Lemma unregistered_name_reaches_the_launcher :
  unregistered (Stub.env true) (PyStr "nosuchsorter") ∧
  ∃ w',
    Sorterlist.run_sorter (Stub.env true) (PyStr "nosuchsorter")
      (Stub.recording true false) (PyBool true) Sorterlist.default_options ∅
      Stub.empty_world = (Raised (KeyError (PyStr "nosuchsorter")), w') ∧
    fs w' !! "/home/user/nosuchsorter_output" = Some Dir ∧
    trace w' = [EvMkdir "/home/user/nosuchsorter_output"].
Proof. split; [vm_compute; reflexivity|]. eexists. split_and!; vm_compute; reflexivity. Qed.


Lemma name_and_class_agree_witness :
  Registry.sorter_dict (Stub.env false) !! "mountainsort4" = Some Mountainsort4Sorter ∧
  Sorterlist.run_sorter (Stub.env false) (PyStr "mountainsort4")
    (Stub.recording true false) (PyBool false) Sorterlist.default_options ∅
    Stub.empty_world =
  Sorterlist.run_sorter (Stub.env false) (PyCls Mountainsort4Sorter)
    (Stub.recording true false) (PyBool false) Sorterlist.default_options ∅
    Stub.empty_world.
Proof.
  apply (name_and_class_agree (Stub.env false) Mountainsort4Sorter
           (Stub.recording true false) (PyBool false) Sorterlist.default_options ∅
           Stub.empty_world).
  - apply (bool_decide_unpack _). vm_compute; reflexivity.
  - apply (bool_decide_unpack _). vm_compute; reflexivity.
Defined.


Lemma container_job_mounts_and_archive_witness :
  (∃ kwargs',
     Sorterlist.precontainer (Stub.env true)
       (Sorterlist.mkContext
          (Sorterlist.job_kwargs (PyOpaque "recording") "mountainsort4"
             "/home/user/mountainsort4_output" "/data/recording"
             Sorterlist.default_options ∅) [] None) =
       (Ok tt,
        Sorterlist.mkContext kwargs'
          [Sorterlist.mkBindMount (PyStr "/data/recording") "/input" true;
           Sorterlist.mkBindMount (PyStr "/home/user/mountainsort4_output") "/output" false]
          (Some "mountainsort4-image")) ∧
     kwargs' !! "input_directory" = Some (PyStr "/input") ∧
     kwargs' !! "output_directory" = Some (PyStr "/output")) ∧
  Sorterlist.run_sorter_docker_with_container (Stub.env false) (PyOpaque "recording")
    "mountainsort4" "/input" "/output" ∅ Stub.empty_world =
    (Ok tt,
     mkWorld
       (<["/output/sorting_docker.npz" := File (Stub.encode_rows [(10, 0)]%Z)]>
          {[ "/output/working" := Dir ]})
       [EvMkdir "/output/working"; EvPrint "mountainsort4 run time 1.0s";
        EvWrite "/output/sorting_docker.npz"]) ∧
  ∃ sorting w' wj data,
    Sorterlist._run_sorter_hither_docker StubHither.env "mountainsort4"
      (Stub.recording true false) Sorterlist.default_options ∅ Stub.empty_world
      = (Ok sorting, w') ∧
    sorting = mkSorting [(10, 0)]%Z (Some Stub.rate) ∧
    fs wj !! "/home/user/mountainsort4_output/sorting_docker.npz" = Some (File data) ∧
    npz_decode StubHither.env data = Ok sorting ∧
    read_paths (drop (length (trace wj)) (trace w'))
      = ["/home/user/mountainsort4_output/sorting_docker.npz"].
Proof.
  split_and!.
  - apply (proj1 (proj2 (proj2 (container_job_mounts_and_archive (Stub.env true))))
             (PyOpaque "recording") "mountainsort4" "/home/user/mountainsort4_output"
             "/data/recording" Sorterlist.default_options ∅ "mountainsort4-image");
      reflexivity.
  - etransitivity.
    + apply (proj1 (proj2 (proj2 (proj2 (container_job_mounts_and_archive (Stub.env false)))))
               (PyOpaque "recording") "mountainsort4" "/input" "/output" ∅ Stub.empty_world
               (mkRecording "loaded" false true Stub.rate)
               (mkSorting [(10, 0)]%Z (Some Stub.rate))
               (mkWorld {[ "/output/working" := Dir ]} [EvMkdir "/output/working"]));
        [reflexivity | vm_compute; reflexivity | reflexivity | reflexivity
        | vm_compute; discriminate].
    + vm_compute; reflexivity.
  - destruct (proj2 (proj2 (proj2 (proj2 (proj2
                (container_job_mounts_and_archive StubHither.env)))))
                "mountainsort4" (Stub.recording true false) Sorterlist.default_options ∅
                Stub.empty_world
                (mkSorting [(10, 0)]%Z (Some Stub.rate))
                (Sorterlist._run_sorter_hither_docker StubHither.env "mountainsort4"
                   (Stub.recording true false) Sorterlist.default_options ∅
                   Stub.empty_world).2)
      as (folder & d & inp & w0 & wj & data & Hfolder & Hmk & Hin & Hjob & Hfile & Hdec & Hread).
    { vm_compute; reflexivity. }
    assert (folder = "mountainsort4_output") as ->.
    { destruct Hfolder as [Hf | [_ Hf]]; [discriminate Hf | exact Hf]. }
    eexists _, _, wj, data. split; [vm_compute; reflexivity|].
    split_and!; [reflexivity | exact Hfile | exact Hdec | exact Hread].
Defined.

Lemma pool_backend_gate_witness :
  Sorterlist.BaseSorter_run (Stub.env false) Stub.sorter (PyBool true) (PyBool true)
    (PyInt 2) (PyStr "multiprocessing") Stub.empty_world
  = (Raised UnsupportedConcurrencyModel, Stub.empty_world).
Proof.
  apply (proj1 (pool_backend_gate (Stub.env false) Stub.sorter (PyBool true)
           (PyBool true) (PyInt 2) "multiprocessing" Stub.empty_world eq_refl)).
  vm_compute; reflexivity.
Defined.

(** * More of the code *)

(** ** The registry, further *)

Section registry_more.
Context (env : Env).
Import Registry.

Lemma dict_by_name_app l1 l2 d :
  dict_by_name env (l1 ++ l2) d = dict_by_name env l2 (dict_by_name env l1 d).
Proof. unfold dict_by_name. apply foldl_app. Qed.

Lemma dict_by_name_member classes d k :
  k ∈ sorter_name env <$> classes →
  ∃ c, c ∈ classes ∧ sorter_name env c = k ∧ dict_by_name env classes d !! k = Some c.
Proof.
  revert d. induction classes as [|x l IH]; intros d Hk; simpl.
  - inversion Hk.
  - destruct (decide (k ∈ sorter_name env <$> l)) as [Hl | Hl].
    + destruct (IH (<[sorter_name env x := x]> d) Hl) as (c & Hc & Hn & Hd).
      exists c. split; [by right | done].
    + rewrite fmap_cons in Hk. apply elem_of_cons in Hk as [-> | Hk]; [|done].
      exists x. split; [by left|]. split; [done|].
      rewrite dict_by_name_fresh by done. by rewrite lookup_insert_eq.
Qed.


Lemma sorter_full_list_NoDup : NoDup sorter_full_list.
Proof. apply (bool_decide_unpack _). vm_compute. reflexivity. Qed.

Lemma sorter_dict_last before c after :
  sorter_full_list = before ++ c :: after →
  sorter_name env c ∉ sorter_name env <$> after →
  sorter_dict env !! sorter_name env c = Some c.
Proof.
  intros Hlist Hfresh. unfold sorter_dict. rewrite Hlist.
  rewrite dict_by_name_app. simpl.
  rewrite dict_by_name_fresh by done. by rewrite lookup_insert_eq.
Qed.

(** When two classes of the list have the same name, the name belongs to
    the later one: a class is what its name looks up exactly when no class
    after it in [sorter_full_list] has that name. *)
Theorem sorter_dict_later_class_wins before c after :
  sorter_full_list = before ++ c :: after →
  (sorter_dict env !! sorter_name env c = Some c ↔
   sorter_name env c ∉ sorter_name env <$> after).
Proof.
  intros Hlist. unfold sorter_dict. rewrite Hlist.
  rewrite dict_by_name_app. simpl. split.
  - intros Hd Hin.
    destruct (dict_by_name_member after
                (<[sorter_name env c := c]> (dict_by_name env before ∅)) _ Hin)
      as (c' & Hc' & _ & Hd').
    rewrite Hd in Hd'. injection Hd' as <-.
    pose proof sorter_full_list_NoDup as Hnd. rewrite Hlist in Hnd.
    apply NoDup_app in Hnd as (_ & _ & Hnd). apply NoDup_cons in Hnd as [Hnd _].
    done.
  - intros Hfresh. rewrite dict_by_name_fresh by done. by rewrite lookup_insert_eq.
Qed.

Lemma available_sorters_Permutation :
  available_sorters env ≡ₚ (map_to_list (sorter_dict env)).*1.
Proof. unfold available_sorters, sorted. apply merge_sort_Permutation. Qed.

Lemma names_Permutation :
  NoDup (sorter_name env <$> sorter_full_list) →
  (map_to_list (sorter_dict env)).*1 ≡ₚ sorter_name env <$> sorter_full_list.
Proof.
  intros Hnd. apply NoDup_Permutation; [apply NoDup_fst_map_to_list | done |].
  intros s. rewrite <- available_sorters_Permutation.
  rewrite elem_of_available_sorters, list_elem_of_fmap.
  split; intros (c & H1 & H2); exists c; by split.
Qed.

(** [available_sorters()] never repeats a name, even when classes share
    one, and has at most one name per class; [installed_sorters()] has one
    entry for each installed class. *)
Theorem listing_sizes :
  NoDup (available_sorters env) ∧
  (List.length (available_sorters env) ≤ List.length sorter_full_list)%nat ∧
  List.length (installed_sorters env) =
    List.length (filter (λ c, class_is_installed env c = true) sorter_full_list).
Proof.
  assert (NoDup (available_sorters env)) as Hnd.
  { rewrite available_sorters_Permutation. apply NoDup_fst_map_to_list. }
  split_and!.
  - done.
  - rewrite <- (length_fmap (sorter_name env)).
    apply submseteq_length, NoDup_submseteq; [done|].
    intros s Hs. apply elem_of_available_sorters in Hs as (c & Hc & <-).
    by apply list_elem_of_fmap_2.
  - unfold installed_sorters, sorted.
    by rewrite merge_sort_Permutation, length_fmap.
Qed.

Lemma StronglySorted_filter {A} (R : relation A) (P : A → Prop)
    `{∀ x, Decision (P x)} (l : list A) :
  StronglySorted R l → StronglySorted R (filter P l).
Proof.
  induction 1 as [|x l Hl IH Hx]; [constructor|].
  rewrite filter_cons. case_decide; [|done].
  constructor; [done|].
  apply Forall_forall. intros y Hy. apply list_elem_of_filter in Hy as [_ Hy].
  revert y Hy. by apply Forall_forall.
Qed.

(** When the classes have different names, [installed_sorters()] is
    [available_sorters()] without the names of the classes that are not
    installed, in the same order. *)
Theorem installed_is_available_filtered :
  NoDup (sorter_name env <$> sorter_full_list) →
  installed_sorters env =
    filter (λ s, s ∈ sorter_name env <$>
                   filter (λ c, class_is_installed env c = true) sorter_full_list)
      (available_sorters env).
Proof.
  intros Hnd. apply (Sorted_unique String.le).
  - apply Sorted_merge_sort, _.
  - apply StronglySorted_Sorted, StronglySorted_filter, StronglySorted_merge_sort; apply _.
  - apply NoDup_Permutation.
    + unfold installed_sorters, sorted. rewrite merge_sort_Permutation.
      eapply sublist_NoDup; [exact Hnd|]. apply fmap_sublist, sublist_filter.
    + apply NoDup_filter. rewrite available_sorters_Permutation.
      apply NoDup_fst_map_to_list.
    + intros s. rewrite list_elem_of_filter.
      unfold installed_sorters at 1. rewrite elem_of_sorted. split.
      * intros Hs. split; [done|].
        apply elem_of_available_sorters.
        apply list_elem_of_fmap in Hs as (c & -> & Hc).
        apply list_elem_of_filter in Hc as [_ Hc]. by exists c.
      * by intros [Hs _].
Qed.

End registry_more.

Lemma installed_is_available_filtered_witness :
  Registry.installed_sorters StubInfo.env =
    filter (λ s, s ∈ Registry.sorter_name StubInfo.env <$>
                   filter (λ c, class_is_installed StubInfo.env c = true)
                     Registry.sorter_full_list)
      (Registry.available_sorters StubInfo.env).
Proof.
  apply (installed_is_available_filtered StubInfo.env).
  apply (bool_decide_unpack _). vm_compute. reflexivity.
Defined.

(** ** Versions, descriptions and wrappers *)

Section listing_facts.
Context (env : Env) (info : ClassInfo).
Import Registry Listing.

Lemma str_app_assoc (s t u : string) : (s +:+ t) +:+ u = s +:+ (t +:+ u).
Proof.
  induction s as [|a s IH]; [reflexivity|].
  change (String a ((s +:+ t) +:+ u) = String a (s +:+ (t +:+ u))).
  by rewrite IH.
Qed.

Lemma str_app_nil_r (s : string) : s +:+ "" = s.
Proof.
  induction s as [|a s IH]; [done|].
  change (String a (s +:+ "") = String a s). by rewrite IH.
Qed.

Lemma str_app_empty (s t : string) : s +:+ t = "" → t = "".
Proof. destruct s; [done | discriminate]. Qed.

Lemma drop_last_app (s t : string) :
  t ≠ "" → drop_last (s +:+ t) = s +:+ drop_last t.
Proof.
  intros Ht. induction s as [|a s IH]; [reflexivity|].
  change (drop_last (String a (s +:+ t)) = String a (s +:+ drop_last t)).
  simpl. destruct (s +:+ t) eqn:Hst.
  - by apply str_app_empty in Hst.
  - by rewrite <- IH.
Qed.

Lemma newline_app_ne (t : string) : newline +:+ t ≠ "".
Proof. change (String (Ascii.ascii_of_nat 10) t ≠ ""). discriminate. Qed.

Lemma line_app_ne (x t : string) : x +:+ newline +:+ t ≠ "".
Proof. intros H. apply str_app_empty in H. by apply newline_app_ne in H. Qed.

(** The text the loop builds: every line followed by a line feed. *)
Lemma drop_last_lines (lines : list string) :
  drop_last (foldr (λ l rest, l +:+ newline +:+ rest) "" lines)
  = String.concat newline lines.
Proof.
  induction lines as [|x [|y ys] IH].
  - reflexivity.
  - change (drop_last (x +:+ newline) = x).
    rewrite drop_last_app by discriminate. apply str_app_nil_r.
  - change (drop_last (x +:+ newline +:+
              foldr (λ l rest, l +:+ newline +:+ rest) "" (y :: ys))
            = x +:+ newline +:+ String.concat newline (y :: ys)).
    rewrite drop_last_app by apply newline_app_ne.
    rewrite drop_last_app by apply line_app_ne.
    by rewrite IH.
Qed.

Lemma versions_text_spec (line : string → string) names txt w :
  (∀ name, name ∈ names →
     ∃ c version, sorter_dict env !! name = Some c ∧
       get_sorter_version info c = Ok version ∧
       line name = name +:+ ": " +:+ version) →
  versions_text env info names txt w =
    (Ok (txt +:+ foldr (λ l rest, l +:+ newline +:+ rest) "" (line <$> names)), w).
Proof.
  revert txt. induction names as [|name names IH]; intros txt Hnames; simpl.
  - unfold ret. by rewrite str_app_nil_r.
  - destruct (Hnames name) as (c & version & Hc & Hv & Hline); [by left|].
    unfold bind at 1. unfold getitem. rewrite Hc. unfold ret at 1.
    unfold bind at 1. unfold lift. rewrite Hv.
    rewrite IH by (intros n Hn; apply Hnames; by right).
    rewrite Hline. by rewrite !str_app_assoc.
Qed.

(** [print_sorter_versions()]: when the classes have different names and
    the version probe of every installed class answers, one line is
    printed per installed sorter, "name: version", in the order of
    [installed_sorters()], with a line feed between lines and none at the
    end; with no sorter installed the empty string is printed.  Nothing
    else happens. *)
Theorem print_sorter_versions_text (version : PyClass → string) w :
  NoDup (sorter_name env <$> sorter_full_list) →
  (∀ c, c ∈ sorter_full_list → class_is_installed env c = true →
        get_sorter_version info c = Ok (version c)) →
  let line name :=
    match sorter_dict env !! name with
    | Some c => name +:+ ": " +:+ version c
    | None => ""
    end in
  print_sorter_versions env info w =
    (Ok tt,
     mkWorld (fs w)
       (trace w ++ [EvPrint (String.concat newline (line <$> installed_sorters env))])).
Proof.
  intros Hnd Hprobe line. unfold print_sorter_versions.
  unfold bind at 1.
  rewrite (versions_text_spec line).
  - unfold print, emit, modify.
    change ("" +:+ ?s) with s. by rewrite drop_last_lines.
  - intros name Hname. unfold installed_sorters in Hname.
    apply elem_of_sorted, list_elem_of_fmap in Hname as (c & -> & Hc).
    apply list_elem_of_filter in Hc as [Hinst Hc].
    assert (sorter_dict env !! sorter_name env c = Some c) as Hd
      by by apply dict_by_name_unique.
    exists c, (version c). subst line. simpl. rewrite Hd.
    split_and!; [done | by apply Hprobe | done].
Qed.




(** [run_mountainsort4] runs the class Mountainsort4Sorter, on the local
    path and on the docker path alike, provided none of the classes listed
    after it in [sorter_full_list] is also named 'mountainsort4'. *)
Theorem run_mountainsort4_runs_the_class recording use_docker opts params w :
  "mountainsort4" ∉ sorter_name env <$> drop 4 sorter_full_list →
  run_mountainsort4 env recording use_docker opts params w =
  Sorterlist.run_sorter env (PyCls Mountainsort4Sorter) recording use_docker opts params w.
Proof.
  intros Hlater.
  assert (sorter_dict env !! "mountainsort4" = Some Mountainsort4Sorter) as Hdict.
  { apply (sorter_dict_last env (take 3 sorter_full_list)
             Mountainsort4Sorter (drop 4 sorter_full_list)); done. }
  unfold run_mountainsort4, Sorterlist.run_sorter, Sorterlist._run_sorter_local.
  rewrite bool_decide_eq_true_2 by (apply (bool_decide_unpack _); by vm_compute).
  destruct (truthy use_docker); [done|].
  unfold bind at 1 3. unfold getitem. by rewrite Hdict.
Qed.

End listing_facts.

Lemma sorter_dict_later_class_wins_witness :
  Registry.sorter_dict (Stub.env false) !! "kilosort2" = Some Kilosort2Sorter.
Proof.
  apply (sorter_dict_later_class_wins (Stub.env false)
           (take 6 Registry.sorter_full_list) Kilosort2Sorter
           (drop 7 Registry.sorter_full_list)); [reflexivity|].
  apply (bool_decide_unpack _). vm_compute. reflexivity.
Defined.

Lemma print_sorter_versions_text_witness :
  Listing.print_sorter_versions StubInfo.env StubInfo.info Stub.empty_world =
    (Ok tt,
     mkWorld ∅
       [EvPrint ("klusta: 1.klusta" +:+ Listing.newline +:+
                 "mountainsort4: 1.mountainsort4" +:+ Listing.newline +:+
                 "yass: 1.yass")]).
Proof.
  apply (print_sorter_versions_text StubInfo.env StubInfo.info
           (λ c, "1." +:+ Stub.wrapper_name c) Stub.empty_world).
  - apply (bool_decide_unpack _). vm_compute. reflexivity.
  - reflexivity.
Defined.

Lemma run_mountainsort4_runs_the_class_witness :
  Listing.run_mountainsort4 (Stub.env false) (Stub.recording true false)
    (PyBool false) Sorterlist.default_options ∅ Stub.empty_world =
  Sorterlist.run_sorter (Stub.env false) (PyCls Mountainsort4Sorter)
    (Stub.recording true false) (PyBool false) Sorterlist.default_options ∅
    Stub.empty_world.
Proof.
  apply (run_mountainsort4_runs_the_class (Stub.env false)).
  apply (bool_decide_unpack _). vm_compute. reflexivity.
Defined.


(** ** The Mountainsort4 backend, further *)

Section mountainsort4_more.
Context (env : Env).
Import Mountainsort4.

Lemma _run_success self recording output_folder w w' :
  _run env self recording output_folder w = (Ok tt, w') →
  let r0 := recover_recording env recording in
  ∃ t r1 wh r2 args final,
    trace w' = trace w ++ t ∧
    (bandpass_calls t = [] ∧ r1 = r0 ∨
     ∃ lo hi, bandpass_calls t = [(r0, lo, hi)] ∧ bandpass_filter env r0 lo hi = Ok r1) ∧
    params self !! "whiten" = Some wh ∧
    (if truthy wh then whiten_calls t = [r1] ∧ whiten env r1 = Ok r2
     else whiten_calls t = [] ∧ r2 = r1) ∧
    sort_calls t = [(r2, args)] ∧
    (curation_calls t = [] ∨ ∃ raw thr, curation_calls t = [(r2, raw, thr)]) ∧
    fs w' = <[path_join output_folder "samplerate.txt" :=
                File (format_float env (get_sampling_frequency r0))]>
              (<[path_join output_folder "firings.mda" :=
                   File (mda_encode env (firings final))]> (fs w)).
Proof.
  unfold _run, write_result, MdaSortingExtractor_write_sorting, cond.
  run_goal. all: try (intros [=]; fail).
  all: intros [= <-]; cbn [fs trace].
  all: eexists _, _, _, _, _, _; split;
    [rewrite <- ?(assoc_L (++)); reflexivity|].
  all: split; [first [left; split; reflexivity | right; eexists _, _; split; [reflexivity | eassumption]]|].
  all: split; [first [eassumption | reflexivity]|].
  all: repeat match goal with H : truthy _ = _ |- _ => rewrite H end.
  all: split; [split; first [reflexivity | eassumption]|].
  all: split; [reflexivity|].
  all: split; [first [left; reflexivity | right; eexists _, _; reflexivity]|].
  all: reflexivity.
Qed.

(** The sorter works on the recording as it comes out of the
    preprocessing: the filter, when it runs, takes the recovered recording;
    the whitening runs exactly when [whiten] is true and takes what the
    filter left; the sorter, and the curation after it, get the result. *)
Theorem preprocessing_feeds_the_sorter self recording output_folder w w' :
  _run env self recording output_folder w = (Ok tt, w') →
  let r0 := recover_recording env recording in
  ∃ t r1 wh r2 args,
    trace w' = trace w ++ t ∧
    (bandpass_calls t = [] ∧ r1 = r0 ∨
     ∃ lo hi, bandpass_calls t = [(r0, lo, hi)] ∧ bandpass_filter env r0 lo hi = Ok r1) ∧
    params self !! "whiten" = Some wh ∧
    (if truthy wh then whiten_calls t = [r1] ∧ whiten env r1 = Ok r2
     else whiten_calls t = [] ∧ r2 = r1) ∧
    sort_calls t = [(r2, args)] ∧
    (curation_calls t = [] ∨ ∃ raw thr, curation_calls t = [(r2, raw, thr)]).
Proof.
  intros Hrun r0.
  destruct (_run_success _ _ _ _ _ Hrun)
    as (t & r1 & wh & r2 & args & final & Ht & Hb & Hwh & Hw & Hs & Hc & _).
  by exists t, r1, wh, r2, args.
Qed.

(** The sampling rate in samplerate.txt is the one of the recording as
    recovered, read before the filter and the whitening: what the
    preprocessed recording would report plays no part. *)
Theorem samplerate_is_read_before_preprocessing self recording output_folder w w' :
  _run env self recording output_folder w = (Ok tt, w') →
  fs w' !! path_join output_folder "samplerate.txt" =
    Some (File (format_float env
                  (get_sampling_frequency (recover_recording env recording)))).
Proof.
  intros Hrun.
  destruct (_run_success _ _ _ _ _ Hrun)
    as (t & r1 & wh & r2 & args & final & _ & _ & _ & _ & _ & _ & ->).
  by rewrite lookup_insert_eq.
Qed.




(** [get_result_from_folder] returns a sorting exactly when samplerate.txt
    is there and parses as a float and firings.mda is there and decodes:
    the sorting then has the decoded rows and the parsed rate, and both
    files were read, the rate first.  There is no partial result. *)
Theorem result_needs_both_files output_folder w s w' :
  let samplerate_txt := path_join output_folder "samplerate.txt" in
  let firings_mda := path_join output_folder "firings.mda" in
  get_result_from_folder env output_folder w = (Ok s, w') ↔
  ∃ txt rate data rows,
    fs w !! samplerate_txt = Some (File txt) ∧
    parse_float env txt = Ok rate ∧
    fs w !! firings_mda = Some (File data) ∧
    mda_decode env data = Ok rows ∧
    s = mkSorting rows (Some rate) ∧
    w' = mkWorld (fs w) (trace w ++ [EvRead samplerate_txt; EvRead firings_mda]).
Proof.
  intros samplerate_txt firings_mda.
  unfold get_result_from_folder, MdaSortingExtractor, read_file.
  fold samplerate_txt firings_mda.
  split.
  - run_goal. all: try (intros [=]; fail).
    intros [= <- <-]. eexists _, _, _, _. split_and!; try done.
    cbn [fs trace]. by rewrite <- (assoc_L (++)).
  - cbv [bind ret raise lift modify get emit]. simpl.
    intros (txt & rate & data & rows & H1 & H2 & H3 & H4 & -> & ->).
    rewrite H1; simpl. rewrite H2; simpl. rewrite H3; simpl. rewrite H4; simpl.
    by rewrite <- (assoc_L (++)).
Qed.


Lemma write_result_fs R S output_folder w w1 :
  write_result env R S output_folder w = (Ok tt, w1) →
  fs w1 = <[path_join output_folder "samplerate.txt" := File (format_float env S)]>
            (<[path_join output_folder "firings.mda" := File (mda_encode env (firings R))]>
               (fs w)).
Proof.
  unfold write_result, MdaSortingExtractor_write_sorting.
  run_goal. all: try (intros [=]; fail).
  all: by intros [= <-].
Qed.

(** What [get_result_from_folder] returns for a folder the end of [_run]
    has just written is decided by the two codecs alone: the rate is what
    [float] parses from what [format] printed for the rate, the rows are
    what the MDA reader decodes from what the MDA writer encoded for the
    sorting, and a failure of either is the failure of the read.  The two
    files do not clobber each other, and reading leaves them as written. *)
Theorem read_back_goes_through_the_codecs R S output_folder w w1 :
  write_result env R S output_folder w = (Ok tt, w1) →
  ∃ w2,
    get_result_from_folder env output_folder w1 =
      (match parse_float env (format_float env S) with
       | Ok rate =>
           match mda_decode env (mda_encode env (firings R)) with
           | Ok rows => Ok (mkSorting rows (Some rate))
           | Raised e => Raised e
           end
       | Raised e => Raised e
       end, w2) ∧
    fs w2 = fs w1.
Proof.
  intros Hfs%write_result_fs.
  unfold get_result_from_folder, MdaSortingExtractor, read_file.
  cbv [bind ret raise lift modify get emit]; simpl.
  rewrite Hfs, lookup_insert_eq.
  destruct (parse_float env _) as [rate|e]; simpl; [|by eexists].
  rewrite lookup_insert_ne by (apply not_eq_sym, firings_not_samplerate).
  rewrite lookup_insert_eq.
  destruct (mda_decode env _) as [rows|e]; simpl; by eexists.
Qed.

End mountainsort4_more.

Lemma read_back_goes_through_the_codecs_witness :
  ∃ w2,
    Mountainsort4.get_result_from_folder (Stub.env false) "/out"
      (Mountainsort4.write_result (Stub.env false) (mkSorting [(300, 1)]%Z None)
         Stub.rate "/out" Stub.empty_world).2 =
      (Ok (mkSorting [(44, 1)]%Z (Some Stub.rate)), w2) ∧
    fs w2 = fs (Mountainsort4.write_result (Stub.env false) (mkSorting [(300, 1)]%Z None)
                  Stub.rate "/out" Stub.empty_world).2.
Proof.
  apply (read_back_goes_through_the_codecs (Stub.env false) (mkSorting [(300, 1)]%Z None)
           Stub.rate "/out" Stub.empty_world).
  vm_compute; reflexivity.
Defined.


Lemma preprocessing_feeds_the_sorter_witness :
  ∃ w' t r1 r2 args,
    Mountainsort4._run (Stub.env false) Stub.sorter (Stub.recording true false)
      "/out" Stub.empty_world = (Ok tt, w') ∧
    trace w' = [] ++ t ∧
    bandpass_calls t = [(Stub.recording true false, PyInt 300, PyInt 6000)] ∧
    whiten_calls t = [r1] ∧
    whiten (Stub.env false) r1 = Ok r2 ∧
    sort_calls t = [(r2, args)].
Proof.
  destruct (preprocessing_feeds_the_sorter (Stub.env false) Stub.sorter
              (Stub.recording true false) "/out" Stub.empty_world
              (Mountainsort4._run (Stub.env false) Stub.sorter
                 (Stub.recording true false) "/out" Stub.empty_world).2)
    as (t & r1 & wh & r2 & args & Ht & Hb & Hwh & Hw & Hs & Hc);
    [vm_compute; reflexivity|].
  injection Hwh as <-. destruct Hw as [Hw1 Hw2].
  eexists _, t, r1, r2, args. split; [vm_compute; reflexivity|].
  split_and!; try done.
  change (trace Stub.empty_world ++ t) with t in Ht. subst t.
  vm_compute; reflexivity.
Defined.

Lemma samplerate_is_read_before_preprocessing_witness :
  fs (Mountainsort4._run (Stub.env false) Stub.sorter (Stub.recording true false)
        "/out" Stub.empty_world).2 !! "/out/samplerate.txt"
  = Some (File "30000.0").
Proof.
  apply (samplerate_is_read_before_preprocessing (Stub.env false) Stub.sorter
           (Stub.recording true false) "/out" Stub.empty_world).
  vm_compute; reflexivity.
Defined.




(** ** The container launcher, further *)

Section container_more.
Context (env : Env).
Import Registry Sorterlist.

Lemma kwrest_lookup (m : gmap string PyVal) named k :
  kwrest m named !! k = if decide (k ∈ named) then None else m !! k.
Proof.
  unfold kwrest. case_decide as Hk.
  - apply map_lookup_filter_None. destruct (m !! k) as [v|]; [right | by left].
    intros x _ Hn. by apply Hn.
  - destruct (m !! k) as [v|] eqn:Hm.
    + by apply map_lookup_filter_Some.
    + apply map_lookup_filter_None. by left.
Qed.

Lemma job_kwargs_lookup d name out inp opts (params : gmap string PyVal) k :
  k ≠ "input_directory" → k ≠ "output_directory" → params !! k = None →
  job_kwargs d name out inp opts params !! k =
    job_dict_literal d name out opts !! k.
Proof.
  intros Hi Ho Hp. unfold job_kwargs.
  rewrite !lookup_insert_ne by done. by rewrite lookup_union_r.
Qed.

(** What the job function hands to [_run_sorter_local] inside the
    container, for a job built by [_run_sorter_hither] and whatever the
    hook put in the two directory arguments: the caller's options, except
    that the output folder is [output_directory/working] and the folder is
    not to be deleted there, and the caller's sorter parameters as they
    were.  The sorter parameters must not use the names of the options or
    of the job function's own arguments. *)
Theorem options_reach_the_container d name out inp outd a b opts params :
  (∀ k, k ∈ (option_names ++ job_function_named) → params !! k = None) →
  bind_options
    (<["output_folder" := PyStr (outd +:+ "/working")]>
       (kwrest
          (<["input_directory" := a]>
             (<["output_directory" := b]> (job_kwargs d name out inp opts params)))
          job_function_named))
  = ({| output_folder := PyStr (outd +:+ "/working");
        delete_output_folder := PyBool false;
        grouping_property := grouping_property opts;
        parallel := parallel opts;
        verbose := verbose opts;
        raise_error := raise_error opts;
        n_jobs := n_jobs opts;
        joblib_backend := joblib_backend opts |},
     params).
Proof.
  intros Hparams.
  assert (∀ k v,
    k ∈ ["delete_output_folder"; "grouping_property"; "parallel"; "verbose";
         "raise_error"; "n_jobs"; "joblib_backend"] →
    job_dict_literal d name out opts !! k = Some v →
    ∀ dflt,
    kwarg
      (<["output_folder" := PyStr (outd +:+ "/working")]>
         (kwrest
            (<["input_directory" := a]>
               (<["output_directory" := b]> (job_kwargs d name out inp opts params)))
            job_function_named)) k dflt = v) as Hopt.
  { intros k v Hk Hv dflt. unfold kwarg.
    assert (k ≠ "output_folder" ∧ k ≠ "input_directory" ∧ k ≠ "output_directory" ∧
            (k ∉ job_function_named) ∧ (k ∈ (option_names ++ job_function_named)))
      as (H1 & H2 & H3 & H4 & H5).
    { repeat (apply elem_of_cons in Hk as [-> | Hk]);
        [by split_and!; try done; apply (bool_decide_unpack _); vm_compute..|].
      inversion Hk. }
    rewrite lookup_insert_ne by done. rewrite kwrest_lookup.
    rewrite decide_False by done.
    rewrite !lookup_insert_ne by done.
    rewrite job_kwargs_lookup by (try done; by apply Hparams).
    by rewrite Hv. }
  unfold bind_options. f_equal.
  - rewrite (Hopt "delete_output_folder" (PyBool false)) by first [set_solver | reflexivity].
    rewrite (Hopt "grouping_property" (grouping_property opts))
      by first [set_solver | reflexivity].
    rewrite (Hopt "parallel" (parallel opts)) by first [set_solver | reflexivity].
    rewrite (Hopt "verbose" (verbose opts)) by first [set_solver | reflexivity].
    rewrite (Hopt "raise_error" (raise_error opts)) by first [set_solver | reflexivity].
    rewrite (Hopt "n_jobs" (n_jobs opts)) by first [set_solver | reflexivity].
    rewrite (Hopt "joblib_backend" (joblib_backend opts))
      by first [set_solver | reflexivity].
    unfold kwarg. by rewrite lookup_insert_eq.
  - apply map_eq. intros k. rewrite kwrest_lookup. case_decide as Hk.
    + symmetry. apply Hparams. apply elem_of_app. by left.
    + assert (k ≠ "output_folder") as Hof.
      { intros ->. apply Hk. apply (bool_decide_unpack _). by vm_compute. }
      rewrite lookup_insert_ne by done. rewrite kwrest_lookup.
      case_decide as Hj.
      * symmetry. apply Hparams. apply elem_of_app. by right.
      * assert (k ≠ "input_directory" ∧ k ≠ "output_directory") as [Hi Ho].
        { split; intros ->; apply Hj; apply (bool_decide_unpack _); by vm_compute. }
        rewrite !lookup_insert_ne by done. unfold job_kwargs.
        rewrite !lookup_insert_ne by done.
        rewrite lookup_union. destruct (params !! k) as [v|]; simpl.
        { by rewrite union_Some_l. }
        rewrite (left_id_L None (∪)).
        unfold option_names, job_function_named in Hk, Hj.
        rewrite !lookup_insert_ne by (intros <-; set_solver).
        apply lookup_empty.
Qed.

(** The hook's failures.  Without a directory argument it raises [KeyError]
    and leaves the context alone.  Without an image for the sorter it
    raises [KeyError] for the sorter's name when the two mounts are
    already in the context: the image and the arguments are as before. *)
Theorem precontainer_failures ctx :
  (kwargs ctx !! "input_directory" = None →
   precontainer env ctx = (Raised (KeyError (PyStr "input_directory")), ctx)) ∧
  (is_Some (kwargs ctx !! "input_directory") →
   kwargs ctx !! "output_directory" = None →
   precontainer env ctx = (Raised (KeyError (PyStr "output_directory")), ctx)) ∧
  (∀ i o name,
     kwargs ctx !! "input_directory" = Some i →
     kwargs ctx !! "output_directory" = Some o →
     kwargs ctx !! "sorter_name" = Some (PyStr name) →
     default_docker_images env !! name = None →
     precontainer env ctx =
       (Raised (KeyError (PyStr name)),
        mkContext (kwargs ctx)
          (bind_mounts ctx ++ [mkBindMount i "/input" true; mkBindMount o "/output" false])
          (image ctx))).
Proof.
  unfold precontainer, get_kwarg, add_bind_mount, set_image, set_kwarg, docker_image.
  cbv [bind ret raise lift modify get getitem]. split_and!.
  - intros ->. by destruct ctx.
  - intros [i ->] ->. by destruct ctx.
  - intros i o name -> ->. simpl. intros -> ->. simpl.
    by rewrite <- (assoc_L (++)).
Qed.


Lemma prefix_app (p q : string) : String.prefix p (p +:+ q) = true.
Proof.
  induction p as [|a p IH]; [by destruct q|].
  change (String.prefix (String a p) (String a (p +:+ q)) = true).
  simpl. by destruct (Ascii.ascii_dec a a).
Qed.

Lemma prefix_app_tail (p q r : string) : String.prefix (p +:+ q) (p +:+ q +:+ r) = true.
Proof.
  induction p as [|a p IH]; [change (String.prefix q (q +:+ r) = true); apply prefix_app|].
  change (String.prefix (String a (p +:+ q)) (String a (p +:+ q +:+ r)) = true).
  simpl. by destruct (Ascii.ascii_dec a a).
Qed.

(** After a successful container run: with [delete_output_folder] the
    output folder and everything below it are gone, and removing them was
    the last thing done, after the archive had been read; without it, the
    archive the sorting was read from is still in the output folder. *)
Theorem output_folder_after_the_run name recording opts params w sorting w' :
  _run_sorter_hither_docker env name recording opts params w = (Ok sorting, w') →
  ∃ folder,
    (output_folder opts = PyStr folder ∨
     output_folder opts = PyNone ∧ folder = name +:+ "_output") ∧
    let out := absolute env folder in
    let archive := path_join out "sorting_docker.npz" in
    if truthy (delete_output_folder opts) then
      fs w' !! out = None ∧
      (∀ below, fs w' !! (out +:+ "/" +:+ below) = None) ∧
      ∃ t, trace w' = t ++ [EvRead archive; EvRmtree out]
    else
      (∃ data, fs w' !! archive = Some (File data) ∧ npz_decode env data = Ok sorting) ∧
      ∃ t, trace w' = t ++ [EvRead archive].
Proof.
  unfold _run_sorter_hither_docker, py_assert.
  destruct (is_dumpable recording); [|done].
  unfold bind at 1. unfold ret at 1.
  assert ((∃ folder,
     (output_folder opts = PyStr folder ∨
      output_folder opts = PyNone ∧ folder = name +:+ "_output") ∧
     Path_absolute env
       match output_folder opts with
       | PyNone => PyStr (name +:+ "_output")
       | folder => folder
       end = ret (absolute env folder)) ∨
     (∃ e, Path_absolute env
       match output_folder opts with
       | PyNone => PyStr (name +:+ "_output")
       | folder => folder
       end = raise e)) as Hpath.
  { destruct (output_folder opts); simpl; eauto 10. }
  destruct Hpath as [(folder & Hfolder & ->) | [e ->]]; [|done].
  unfold bind at 1. unfold ret at 1.
  unfold bind at 1.
  destruct (mkdir (absolute env folder) w) as [[[]|] w0] eqn:Hmk; [|done].
  unfold bind at 1. unfold lift at 1.
  destruct (modify_input_folder _ _ _) as [[d inp]|] eqn:Hin; [|done].
  unfold bind at 1.
  destruct (hither_Job_wait _ _ _) as [[[]|] wj] eqn:Hjob; [|done].
  unfold NpzSortingExtractor, read_file, rmtree.
  cbv [bind ret raise lift modify get emit]. simpl.
  destruct (fs wj !! _) as [[|data]|] eqn:Hfile; try done.
  destruct (npz_decode env data) as [s|] eqn:Hdec; [|done].
  intros Hres. exists folder. split; [done|]. simpl.
  destruct (truthy (delete_output_folder opts)); simplify_eq; simpl.
  - split_and!.
    + apply map_lookup_filter_None. destruct (fs wj !! absolute env folder); [right | by left].
      intros x _ [Hne _]. by apply Hne.
    + intros below. apply map_lookup_filter_None.
      destruct (fs wj !! _); [right | by left].
      intros x _ [_ Hpre]. apply Hpre. simpl.
      apply prefix_app_tail.
    + exists (trace wj). by rewrite <- (assoc_L (++)).
  - split; [by exists data | by exists (trace wj)].
Qed.

(** When the job fails, the launcher fails with the job's exception and
    stops there: the archive is not read and the output folder is not
    removed, whatever [delete_output_folder] says.  The world is the one
    the job left. *)
Theorem failed_job_skips_the_cleanup name recording opts params w folder w0 d inp e wj :
  is_dumpable recording = true →
  (output_folder opts = PyStr folder ∨
   output_folder opts = PyNone ∧ folder = name +:+ "_output") →
  mkdir (absolute env folder) w = (Ok tt, w0) →
  modify_input_folder env (dump_to_dict env recording) "/input" = Ok (d, inp) →
  hither_Job_wait env (job_kwargs d name (absolute env folder) inp opts params) w0
    = (Raised e, wj) →
  _run_sorter_hither_docker env name recording opts params w = (Raised e, wj).
Proof.
  intros Hdump Hfolder Hmk Hin Hjob.
  unfold _run_sorter_hither_docker, py_assert. rewrite Hdump.
  unfold bind at 1. unfold ret at 1.
  assert (Path_absolute env
            match output_folder opts with
            | PyNone => PyStr (name +:+ "_output")
            | folder => folder
            end = ret (absolute env folder)) as ->.
  { destruct Hfolder as [-> | [-> ->]]; reflexivity. }
  unfold bind at 1. unfold ret at 1.
  unfold bind at 1. rewrite Hmk.
  unfold bind at 1. unfold lift at 1. rewrite Hin.
  unfold bind at 1. by rewrite Hjob.
Qed.

End container_more.

Lemma options_reach_the_container_witness :
  Sorterlist.bind_options
    (<["output_folder" := PyStr ("/output" +:+ "/working")]>
       (kwrest
          (<["input_directory" := PyStr "/input"]>
             (<["output_directory" := PyStr "/output"]>
                (Sorterlist.job_kwargs (PyOpaque "recording") "mountainsort4"
                   "/home/user/out" "/data/recording" Sorterlist.default_options
                   {[ "detect_sign" := PyInt 1 ]})))
          job_function_named))
  = ({| Sorterlist.output_folder := PyStr ("/output" +:+ "/working");
        Sorterlist.delete_output_folder := PyBool false;
        Sorterlist.grouping_property := PyNone;
        Sorterlist.parallel := PyBool false;
        Sorterlist.verbose := PyBool false;
        Sorterlist.raise_error := PyBool true;
        Sorterlist.n_jobs := PyInt (-1);
        Sorterlist.joblib_backend := PyStr "loky" |},
     {[ "detect_sign" := PyInt 1 ]}).
Proof.
  apply (options_reach_the_container (PyOpaque "recording") "mountainsort4"
           "/home/user/out" "/data/recording" "/output" (PyStr "/input") (PyStr "/output")
           Sorterlist.default_options {[ "detect_sign" := PyInt 1 ]}).
  intros k Hk. simpl in Hk.
  repeat (apply elem_of_cons in Hk as [-> | Hk]); try reflexivity.
  inversion Hk.
Defined.

Lemma precontainer_failures_witness :
  Sorterlist.precontainer (Stub.env true)
    (Sorterlist.mkContext
       (Sorterlist.job_kwargs (PyOpaque "recording") "nosuchsorter" "/home/user/out"
          "/data/recording" Sorterlist.default_options ∅) [] None)
  = (Raised (KeyError (PyStr "nosuchsorter")),
     Sorterlist.mkContext
       (Sorterlist.job_kwargs (PyOpaque "recording") "nosuchsorter" "/home/user/out"
          "/data/recording" Sorterlist.default_options ∅)
       ([] ++ [Sorterlist.mkBindMount (PyStr "/data/recording") "/input" true;
               Sorterlist.mkBindMount (PyStr "/home/user/out") "/output" false])
       None).
Proof.
  apply (proj2 (proj2 (precontainer_failures (Stub.env true)
           (Sorterlist.mkContext
              (Sorterlist.job_kwargs (PyOpaque "recording") "nosuchsorter"
                 "/home/user/out" "/data/recording" Sorterlist.default_options ∅)
              [] None)))); reflexivity.
Defined.


Lemma output_folder_after_the_run_witness :
  ∃ folder,
    (PyStr "results" = PyStr folder ∨
     PyStr "results" = PyNone ∧ folder = "mountainsort4" +:+ "_output") ∧
    fs (Sorterlist._run_sorter_hither_docker (Stub.env true) "mountainsort4"
          (Stub.recording true false)
          (Sorterlist.mkOptions (PyStr "results") (PyBool true) PyNone (PyBool false)
             (PyBool false) (PyBool true) (PyInt (-1)) (PyStr "loky"))
          ∅ Stub.empty_world).2 !! absolute (Stub.env true) folder = None.
Proof.
  destruct (output_folder_after_the_run (Stub.env true) "mountainsort4"
              (Stub.recording true false)
              (Sorterlist.mkOptions (PyStr "results") (PyBool true) PyNone (PyBool false)
                 (PyBool false) (PyBool true) (PyInt (-1)) (PyStr "loky"))
              ∅ Stub.empty_world
              (mkSorting [(10, 0)]%Z (Some Stub.rate))
              (Sorterlist._run_sorter_hither_docker (Stub.env true) "mountainsort4"
                 (Stub.recording true false)
                 (Sorterlist.mkOptions (PyStr "results") (PyBool true) PyNone (PyBool false)
                    (PyBool false) (PyBool true) (PyInt (-1)) (PyStr "loky"))
                 ∅ Stub.empty_world).2)
    as (folder & Hfolder & Hgone & _); [vm_compute; reflexivity|].
  exists folder. split; [exact Hfolder | exact Hgone].
Defined.

Lemma failed_job_skips_the_cleanup_witness :
  Sorterlist._run_sorter_hither_docker (Stub.env true) "nosuchsorter"
    (Stub.recording true false)
    (Sorterlist.mkOptions (PyStr "/results") (PyBool true) PyNone (PyBool false)
       (PyBool false) (PyBool true) (PyInt (-1)) (PyStr "loky"))
    ∅ Stub.empty_world
  = (Raised (KeyError (PyStr "nosuchsorter")),
     mkWorld {[ "/results" := Dir ]} [EvMkdir "/results"]).
Proof.
  apply (failed_job_skips_the_cleanup (Stub.env true) "nosuchsorter"
           (Stub.recording true false)
           (Sorterlist.mkOptions (PyStr "/results") (PyBool true) PyNone (PyBool false)
              (PyBool false) (PyBool true) (PyInt (-1)) (PyStr "loky"))
           ∅ Stub.empty_world "/results"
           (mkWorld {[ "/results" := Dir ]} [EvMkdir "/results"])
           (PyOpaque "recording") "/data/recording");
    first [reflexivity | by left | vm_compute; reflexivity].
Defined.
